(** * map-ephys: trial synchronisation and condition resolution

    A shallow embedding of the algorithmic parts of
    [pipeline/experiment.py] ([PhotostimBrainRegion.make], [Breathing.make])
    and of [pipeline/plot/unit_psth.py]
    ([plot_unit_psth_choice_outcome],
    [plot_unit_psth_latent_variable_quantile]), followed by the properties
    that the specification states about them.

    Conventions.
    - Python exceptions are values of [Py.exn]; a computation that may raise
      is a [Py.result]; a [make] method that writes to its own table is a
      state-and-error computation [Py.M table].
    - numpy [float64] values are the kernel's binary64 floats ([PrimFloat]).
    - A MySQL [decimal(6,2)] is its number of hundredths, a bounded integer.
    - Collaborators whose code lives outside the two modules (the DataJoint
      tables of other schemas, [readSGLX], [ephys_ingest], pandas) are fields
      of an environment record that every definition takes as an argument. *)

From Stdlib Require Import ZArith List String Ascii Bool Lia Floats Uint63.
From stdpp Require Import base option list gmap strings.
Import ListNotations.
Open Scope Z_scope.

(* ===================================================================== *)
(** * Part I. The embedding                                               *)
(* ===================================================================== *)

(** ** Python values and control flow *)
Module Py.

Inductive exn : Type :=
| ValueError (msg : string)
| AssertionError
| IndexError
| KeyError (k : string)
| TypeError (msg : string)
| FileNotFoundError (msg : string)
| DataJointError (msg : string).

Inductive result (A : Type) : Type :=
| Ok (a : A)
| Raise (e : exn).
Arguments Ok {A} a.
Arguments Raise {A} e.

Definition bind {A B} (r : result A) (k : A -> result B) : result B :=
  match r with
  | Ok a => k a
  | Raise e => Raise e
  end.

(** [for x in xs: acc.append(f x)] where [f] may raise. *)
Fixpoint for_each {A B} (f : A -> result B) (xs : list A) : result (list B) :=
  match xs with
  | [] => Ok []
  | x :: xs' =>
      bind (f x) (fun y => bind (for_each f xs') (fun ys => Ok (y :: ys)))
  end.

(** A method that reads and writes the table [S] it is bound to. *)
Definition M (S A : Type) : Type := S -> result A * S.

Definition ret {S A} (a : A) : M S A := fun s => (Ok a, s).
Definition raise {S A} (e : exn) : M S A := fun s => (Raise e, s).
Definition lift {S A} (r : result A) : M S A := fun s => (r, s).
Definition mbind {S A B} (m : M S A) (k : A -> M S B) : M S B :=
  fun s =>
    match m s with
    | (Ok a, s') => k a s'
    | (Raise e, s') => (Raise e, s')
    end.

(** [range(n)] *)
Definition range (n : nat) : list Z := List.map Z.of_nat (List.seq 0 n).

(** [len(a)] *)
Definition len {A} (a : list A) : Z := Z.of_nat (List.length a).

(** [a[i]]: a negative index counts from the end; out of range raises. *)
Definition getitem {A} (a : list A) (i : Z) : result A :=
  let j := if i <? 0 then i + len a else i in
  if (j <? 0) || (len a <=? j) then Raise IndexError
  else
    match List.nth_error a (Z.to_nat j) with
    | Some x => Ok x
    | None => Raise IndexError
    end.

(** How a slice bound is normalised against a length: a negative bound
    counts from the end, and both ends are clipped to [0, len]. *)
Definition slice_bound (n i : Z) : Z :=
  if i <? 0 then Z.max 0 (i + n) else Z.min i n.

(** [a[start:stop]]; never raises. *)
Definition slice {A} (a : list A) (start stop : Z) : list A :=
  let lo := slice_bound (len a) start in
  let hi := slice_bound (len a) stop in
  List.firstn (Z.to_nat (hi - lo)) (List.skipn (Z.to_nat lo) a).

(** The elements of [a] at the positions [lo], ..., [hi - 1], for
    [0 <= lo <= hi <= len a]: the half-open range [[lo, hi)]. *)
Definition between {A} (a : list A) (lo hi : Z) : list A :=
  List.firstn (Z.to_nat (hi - lo)) (List.skipn (Z.to_nat lo) a).

(** [needle in hay] for two [str]. *)
Fixpoint contains (needle hay : string) : bool :=
  if String.prefix needle hay then true
  else
    match hay with
    | EmptyString => false
    | String _ rest => contains needle rest
    end.

(** [needle] occurs in [hay]: what [in] decides. *)
Definition occurs_in (needle hay : string) : Prop :=
  exists pre post, hay = String.append pre (String.append needle post).

(** [any] and [all] of a boolean numpy array. *)
Definition any {A} (p : A -> bool) (a : list A) : bool := List.existsb p a.
Definition all {A} (p : A -> bool) (a : list A) : bool := List.forallb p a.

End Py.

Declare Scope py_scope.
Delimit Scope py_scope with py.
Notation "'let*' x ':=' r 'in' k" := (Py.bind r (fun x => k))
  (at level 10, x name, r at level 100, k at level 200) : py_scope.
Notation "'let!' x ':=' m 'in' k" := (Py.mbind m (fun x => k))
  (at level 10, x name, m at level 100, k at level 200) : py_scope.

(** ** SQL and numpy scalars *)
Module Scalar.

(** A [decimal(6,2)] column value, as its count of hundredths. *)
Record decimal_6_2 : Type := Decimal {
  hundredths : Z;
  hundredths_range : (Z.abs hundredths <=? 999999) = true
}.

(** A whole number written as a [decimal(6,2)], e.g. [5] for [5.00]. *)
Definition whole (n : Z) (H : (Z.abs (100 * n) <=? 999999) = true)
  : decimal_6_2 := Decimal (100 * n) H.

(** [float(d)]: the binary64 nearest to the decimal. Both the count of
    hundredths and 100 are exact in binary64 and the division is
    correctly rounded, so the quotient is that nearest float. *)
Definition float_of_hundredths (c : Z) : float :=
  let m := PrimFloat.of_uint63 (Uint63.of_Z (Z.abs c)) in
  let q := PrimFloat.div m 100%float in
  if c <? 0 then PrimFloat.opp q else q.

Definition float_of_decimal (d : decimal_6_2) : float :=
  float_of_hundredths (hundredths d).

(** An integer sample as a float (exact below 2^53). *)
Definition float_of_Z (z : Z) : float :=
  if z <? 0 then PrimFloat.opp (PrimFloat.of_uint63 (Uint63.of_Z (- z)))
  else PrimFloat.of_uint63 (Uint63.of_Z z).

(** The cast of a float to a 64-bit integer as numpy does it on x86:
    truncation towards zero, and the least integer for NaN, the
    infinities and values out of range. *)
Definition trunc_int64 (x : float) : Z :=
  match Prim2SF x with
  | S754_zero _ => 0
  | S754_finite s m e =>
      let mag := if 0 <=? e then Z.pos m * 2 ^ e
                 else Z.shiftr (Z.pos m) (- e) in
      let v := if s then - mag else mag in
      if (- 2 ^ 63 <=? v) && (v <? 2 ^ 63) then v else - 2 ^ 63
  | _ => - 2 ^ 63
  end.

(** Element-wise comparisons of a float array against [0]. *)
Definition gt0 (x : float) : bool := PrimFloat.ltb 0%float x.
Definition lt0 (x : float) : bool := PrimFloat.ltb x 0%float.
Definition eq0 (x : float) : bool := PrimFloat.eqb x 0%float.

(** The three comparisons of [float(d)] against [0] agree with the
    sign of the decimal [d] of [c] hundredths. *)
Definition sign_agrees (c : Z) : bool :=
  if Z.abs c <=? 999999
  then
    let x := float_of_hundredths c in
    Bool.eqb (gt0 x) (0 <? c) && Bool.eqb (lt0 x) (c <? 0)
    && Bool.eqb (eq0 x) (c =? 0)
  else true.

(** [P] holds on the [2^d] integers from [base] on. *)
Fixpoint forall_block (P : Z -> bool) (d : nat) (base : Z) : bool :=
  match d with
  | O => P base
  | S d' => forall_block P d' base && forall_block P d' (base + 2 ^ Z.of_nat d')
  end.

End Scalar.

(** ** [pipeline/experiment.py] *)
Module Experiment.
Import Py Scalar.
Local Open Scope py_scope.

(** *** [Photostim.PhotostimLocation] and [PhotostimBrainRegion] *)

(** Primary key of [Session]. *)
Record SessionKey : Type := {
  subject_id : Z;
  session : Z
}.

Definition SessionKey_eqb (k1 k2 : SessionKey) : bool :=
  (subject_id k1 =? subject_id k2) && (session k1 =? session k2).

(** Primary key of [Photostim]: [-> Session] and the protocol number. *)
Record PhotostimKey : Type := {
  photostim_session : SessionKey;
  photo_stim : Z
}.

Definition PhotostimKey_eqb (k1 k2 : PhotostimKey) : bool :=
  SessionKey_eqb (photostim_session k1) (photostim_session k2)
  && (photo_stim k1 =? photo_stim k2).

(** A row of [Photostim.PhotostimLocation]; of its columns [make]
    fetches [brain_area] and [ml_location] only. *)
Record PhotostimLocation : Type := {
  master : PhotostimKey;
  ap_location : decimal_6_2;
  ml_location : decimal_6_2;
  depth : decimal_6_2;
  brain_area : string
}.

Inductive laterality : Type := Left | Right | Both.

(** A row of [PhotostimBrainRegion]. *)
Record PhotostimBrainRegion : Type := {
  key : PhotostimKey;
  stim_brain_area : string;
  stim_laterality : laterality
}.

(** [Photostim.PhotostimLocation & key] *)
Definition restrict_locations (key : PhotostimKey)
    (locations : list PhotostimLocation) : list PhotostimLocation :=
  List.filter (fun r => PhotostimKey_eqb (master r) key) locations.

(** [self.insert1(row)]: a row whose primary key is already present is
    refused. *)
Definition insert1 (row : PhotostimBrainRegion)
  : M (list PhotostimBrainRegion) unit :=
  fun table =>
    if List.existsb (fun r => PhotostimKey_eqb (key r) (key row)) table
    then (Raise (DataJointError "Duplicate entry"), table)
    else (Ok tt, table ++ [row]).

(** The two errors that [make] raises itself. *)
Definition several_areas : exn :=
  ValueError
    "Multiple different brain areas for one photostim protocol is unsupported".
Definition ambiguous : exn :=
  ValueError "Ambiguous hemisphere: ML locations are all 0...".

(** Lines 129-143 of [PhotostimBrainRegion.make], up to the row that is
    handed to [insert1]. *)
Definition resolve (rows : list PhotostimLocation)
  : result (string * laterality) :=
  let brain_areas := List.map brain_area rows in
  let ml_locations := List.map (fun r => float_of_decimal (ml_location r)) rows in
  if (1 <? Z.of_nat (size (list_to_set (C := gset string) brain_areas)))
  then Raise several_areas
  else
    let* lat := (if any gt0 ml_locations && any lt0 ml_locations then Ok Both
            else if all gt0 ml_locations then Ok Right
            else if all lt0 ml_locations then Ok Left
            else if all eq0 ml_locations
                 then Raise ambiguous
                 else Raise AssertionError) in
    let* area := getitem brain_areas 0 in
    Ok (area, lat).

(** [PhotostimBrainRegion.make(self, key)] *)
Definition PhotostimBrainRegion_make (locations : list PhotostimLocation)
    (k : PhotostimKey) : M (list PhotostimBrainRegion) unit :=
  let! r := lift (resolve (restrict_locations k locations)) in
  insert1 {| key := k; stim_brain_area := fst r; stim_laterality := snd r |}.

(** *** [Breathing] *)

(** A row of [Breathing]. *)
Record BreathingRow : Type := {
  breathing_session : SessionKey;
  trial : Z;
  breathing : list float;
  breathing_timestamps : list float
}.

(** What [Breathing.make] calls outside this module: two DataJoint
    fetches, [pipeline.ingest.ephys], [pipeline.ingest.readSGLX] and
    numpy's float-to-int cast. The [.meta] file is a [dict] of strings;
    the memory-mapped raw buffer is channels by samples. *)
Record Collaborators : Type := {
  water_restriction_number : SessionKey -> result string;
  sess_datetime : SessionKey -> result string;
  get_ephys_paths : list string;
  _get_sess_dir : string -> string -> string -> option string * string;
  build_bitcode : string -> result (list string * list float);
  readMeta : string -> result (gmap string string);
  SampRate : gmap string string -> result float;
  makeMemMapRaw : string -> gmap string string -> result (list (list Z));
  GainCorrectIM :
    list (list Z) -> list Z -> gmap string string -> result (list (list float));
  GainCorrectNI :
    list (list Z) -> list Z -> gmap string string -> result (list (list float));
  astype_int : float -> Z
}.

(** [for rigpath in rigpaths: ... break / else: raise FileNotFoundError] *)
Fixpoint find_session_dir (env : Collaborators) (h2o dt : string)
    (rigpaths : list string) : result string :=
  match rigpaths with
  | [] => Raise (FileNotFoundError "Error - No session folder found")
  | rigpath :: rest =>
      match fst (_get_sess_dir env rigpath h2o dt) with
      | Some session_ephys_dir => Ok session_ephys_dir
      | None => find_session_dir env h2o dt rest
      end
  end.

Definition binFullPath : string :=
  "F:\map\test_data_full\ephys\DL004\catgt_20210308_g0\20210308_g0_t0.nidq.bin".

(** channel 2 is for breathing data *)
Definition chanList : list Z := [2].

(** [meta['typeThis']] *)
Definition meta_getitem (meta : gmap string string) (k : string)
  : result string :=
  match meta !! k with
  | Some v => Ok v
  | None => Raise (KeyError k)
  end.

(** [c * a] for a float scalar and a two-dimensional float array. *)
Definition scale (c : float) (a : list (list float)) : list (list float) :=
  List.map (List.map (PrimFloat.mul c)) a.

(** Lines 460-465: gain correction and unit conversion. *)
Definition gain_correct (env : Collaborators) (meta : gmap string string)
    (breathing_data : list (list Z)) : result (list (list float)) :=
  let* typeThis := meta_getitem meta "typeThis" in
  if String.eqb typeThis "imec"
  then (* apply gain correction and convert to uV *)
    let* corrected := GainCorrectIM env breathing_data chanList meta in
    Ok (scale 1e6%float corrected)
  else (* apply gain correction and convert to mV *)
    let* corrected := GainCorrectNI env breathing_data chanList meta in
    Ok (scale 1e3%float corrected).

(** [breathing_data[:, start_idx:end_idx].flatten()] *)
Definition columns_flat {A} (breathing_data : list (list A))
    (start_idx end_idx : Z) : list A :=
  List.concat (List.map (fun row => slice row start_idx end_idx) breathing_data).

(** The body of the loop of lines 469-473 for one [idx]. *)
Definition segment_one {A} (breathing_data : list (list A))
    (trial_starts_indices : list Z) (idx : Z) : result (list A) :=
  let* start_idx := getitem trial_starts_indices idx in
  let* last := getitem trial_starts_indices (-1) in
  let* end_idx := (if start_idx <? last
                   then getitem trial_starts_indices (idx + 1)
                   else Ok (-1)) in
  Ok (columns_flat breathing_data start_idx end_idx).

(** Line 471 in closed form: the segment of trial [i] stops at the next
    start as long as its own start is below the last start, and at
    [-1] otherwise. *)
Definition end_idx (ts : list Z) (i : nat) : Z :=
  if List.nth i ts 0 <? List.nth (List.length ts - 1) ts 0
  then List.nth (S i) ts 0
  else -1.

(** Where line 471 puts the end of segment [i] when the starts are
    increasing and inside the buffer: the next start, or one sample
    before the end of the stream for the last trial. *)
Definition stop_of {A} (buf : list A) (ts : list Z) (i : nat) : Z :=
  if (S i <? List.length ts)%nat then List.nth (S i) ts 0 else len buf - 1.

(** Start indices that grow strictly from trial to trial. *)
Definition increasing (ts : list Z) : Prop :=
  forall i j, (i < j < List.length ts)%nat -> List.nth i ts 0 < List.nth j ts 0.

(** Lines 467-473: segment to per-trial. *)
Definition segment_trials {A} (breathing_data : list (list A))
    (trial_starts_indices : list Z) : result (list (list A)) :=
  for_each (segment_one breathing_data trial_starts_indices)
           (range (List.length trial_starts_indices)).

(** Lines 434-446 of [Breathing.make]: from the session key to the
    trial start times of its bitcode. *)
Definition session_trial_start_times (env : Collaborators) (key : SessionKey)
  : result (list float) :=
  let* h2o := water_restriction_number env key in
  let* dt := sess_datetime env key in
  let* session_ephys_dir := find_session_dir env h2o dt (get_ephys_paths env) in
  let* bitcode := build_bitcode env session_ephys_dir in
  Ok (snd bitcode).

(** Lines 432-473 of [Breathing.make]: everything before the insert. *)
Definition Breathing_all_trials_data (env : Collaborators) (key : SessionKey)
  : result (list (list float)) :=
  let* trial_start_times := session_trial_start_times env key in
  let* meta := readMeta env binFullPath in
  let* sRate := SampRate env meta in
  let* rawData := makeMemMapRaw env binFullPath meta in
  let trial_starts_indices :=
    List.map (fun t => astype_int env (PrimFloat.mul t sRate)) trial_start_times in
  let* breathing_data := for_each (getitem rawData) chanList in
  let* breathing_data := gain_correct env meta breathing_data in
  segment_trials breathing_data trial_starts_indices.

Definition not_subscriptable : exn :=
  TypeError "'method' object is not subscriptable".

(** [self.insert[x]]: [insert] is a bound method, and subscripting a
    bound method raises. *)
Definition subscript_insert {A} (x : A) : M (list BreathingRow) unit :=
  raise not_subscriptable.

(** [Breathing.make(self, key)] *)
Definition Breathing_make (env : Collaborators) (key : SessionKey)
  : M (list BreathingRow) unit :=
  let! all_trials_data := lift (Breathing_all_trials_data env key) in
  subscript_insert all_trials_data.

End Experiment.

(** ** [pipeline/plot/unit_psth.py] *)
Module UnitPsth.
Import Py.
Local Open Scope py_scope.

(** [unit_key] *)
Record UnitKey : Type := {
  unit_session : Experiment.SessionKey;
  insertion_number : Z;
  clustering_method : string;
  unit_no : Z
}.

(** A row of [ephys.TrialEvent]. *)
Record TrialEventRow : Type := {
  event_session : Experiment.SessionKey;
  event_trial : Z;
  trial_event_id : Z;
  trial_event_type : string
}.

(** A row of [psth_foraging.AlignType], with the columns fetched here. *)
Record AlignTypeRow : Type := {
  align_type_name : string;
  trial_offset : Z;
  xlim : float * float
}.

(** The primary key of a row of [experiment.BehaviorTrial]. *)
Record TrialKey : Type := {
  trial_session : Experiment.SessionKey;
  trial : Z
}.

(** A row of the data frame of [_get_unit_independent_variable]: the
    columns [trial] and the requested variable, and [quantile_rank] once
    it is assigned ([None] is NaN). *)
Record Row : Type := {
  row_trial : Z;
  latent_variable : float;
  quantile_rank : option Z
}.

(** Tables and functions of other modules, and [pandas.qcut] called
    with [labels=False, duplicates='drop']. *)
Record Collaborators : Type := {
  TrialEvent : list TrialEventRow;
  AlignType : list AlignTypeRow;
  BehaviorTrial : list TrialKey;
  _get_unit_independent_variable :
    UnitKey -> string -> Z -> result (list Row);
  qcut : list float -> Z -> result (list (option Z))
}.

(** [ephys.TrialEvent & unit_key & 'trial_event_type = "zaberready"']:
    a restriction by a [dict] uses the attributes the table has, here
    those of the session. *)
Definition zaberready_events (env : Collaborators) (unit_key : UnitKey)
  : list TrialEventRow :=
  List.filter
    (fun e => Experiment.SessionKey_eqb (event_session e) (unit_session unit_key)
              && String.eqb (trial_event_type e) "zaberready")
    (TrialEvent env).

(** The session of [unit_key] has no "zaberready" event. *)
Definition no_zaberready (env : Collaborators) (unit_key : UnitKey) : Prop :=
  forall e, In e (TrialEvent env) ->
            event_session e = unit_session unit_key ->
            trial_event_type e <> "zaberready"%string.

(** [a + '_bitcode' if 'trial_start' in a else a] *)
Definition bitcode_name (a : string) : string :=
  if contains "trial_start" a then String.append a "_bitcode" else a.

(** Lines 245-247 and 352-354: a query is true when it has a row. *)
Definition resolve_align_types (env : Collaborators) (unit_key : UnitKey)
    (align_types : list string) : list string :=
  if negb (0 <? len (zaberready_events env unit_key))
  then List.map bitcode_name align_types
  else align_types.

(** What lines 359-364 leave behind: either the function has printed a
    message and returned [None], or the frame carries its ranks and the
    number of groups is known. *)
Inductive cut : Type :=
| PrintedAndReturned (msg : string)
| Ranked (df : list Row) (n_quantile : nat).

Definition set_rank (r : Row) (rank : option Z) : Row :=
  {| row_trial := row_trial r;
     latent_variable := latent_variable r;
     quantile_rank := rank |}.

Definition no_data_message : string :=
  "No latent variable data or too few unique values".

(** [df['quantile_rank'] = ranks], one rank per row in order. *)
Definition assign_ranks (df : list Row) (ranks : list (option Z)) : list Row :=
  List.map (fun p => set_rank (fst p) (snd p)) (List.combine df ranks).

(** [len(df['quantile_rank'].unique())]; NaN counts as one value. *)
Definition n_unique_ranks (df : list Row) : nat :=
  List.length (remove_dups (List.map quantile_rank df)).

(** Lines 359-364: cut into quantiles. *)
Definition cut_into_quantiles (env : Collaborators) (df : list Row)
    (n_quantile : Z) : result cut :=
  if any PrimFloat.is_nan (List.map latent_variable df)
  then Ok (PrintedAndReturned no_data_message)
  else
    let* ranks := qcut env (List.map latent_variable df) n_quantile in
    let df := assign_ranks df ranks in
    Ok (Ranked df (n_unique_ranks df)).

(** [(psth_foraging.AlignType & {...}).fetch1('trial_offset', 'xlim')] *)
Definition fetch1_align_type (env : Collaborators) (align_type : string)
  : result (Z * (float * float)) :=
  match List.filter (fun r => String.eqb (align_type_name r) align_type)
                    (AlignType env) with
  | [r] => Ok (trial_offset r, xlim r)
  | _ => Raise (DataJointError "fetch1 should only return one tuple")
  end.

(** Lines 400-401: the rows of one group, their trial numbers shifted. *)
Definition trial_num (df : list Row) (rank : Z) (offset : Z) : list Row :=
  List.map
    (fun r => {| row_trial := row_trial r + offset;
                 latent_variable := latent_variable r;
                 quantile_rank := quantile_rank r |})
    (List.filter
       (fun r => match quantile_rank r with
                 | Some q => q =? rank
                 | None => false
                 end) df).

(** Line 406: [(experiment.BehaviorTrial & unit_key & trial_num).proj()];
    a restriction by a data frame keeps the rows that agree with one of
    its rows on the shared column, [trial]. *)
Definition this_trials (env : Collaborators) (unit_key : UnitKey)
    (trial_num : list Row) : list TrialKey :=
  List.filter
    (fun b => Experiment.SessionKey_eqb (trial_session b) (unit_session unit_key)
              && List.existsb (fun r => row_trial r =? trial b) trial_num)
    (BehaviorTrial env).

(** Lines 398-407 for one alignment type: the trial set of every group. *)
Definition group_trials (env : Collaborators) (unit_key : UnitKey)
    (df : list Row) (n_quantile : nat) (offset : Z) : list (list TrialKey) :=
  List.map (fun rank => this_trials env unit_key (trial_num df rank offset))
           (range n_quantile).

(** What [plot_unit_psth_latent_variable_quantile] resolves before it
    draws: [None] after the printed message, or, per alignment type, its
    name and window and the trial set of each quantile group. *)
Definition plot_unit_psth_latent_variable_quantile (env : Collaborators)
    (unit_key : UnitKey) (model_id : Z) (n_quantile : Z)
    (align_types : list string) (latent_variable : string)
  : result (option (list (string * (float * float) * list (list TrialKey)))) :=
  let align_types := resolve_align_types env unit_key align_types in
  let* df := _get_unit_independent_variable env unit_key latent_variable model_id in
  let* c := cut_into_quantiles env df n_quantile in
  match c with
  | PrintedAndReturned _ => Ok None
  | Ranked df n_quantile =>
      let* groups :=
        for_each
          (fun align_type =>
             let* ox := fetch1_align_type env align_type in
             Ok (align_type, snd ox, group_trials env unit_key df n_quantile (fst ox)))
          align_types in
      Ok (Some groups)
  end.

End UnitPsth.

(** ** Concrete data used to exercise the definitions *)
Module Examples.
Import Py Scalar Experiment.

Definition session47 : SessionKey := {| subject_id := 473361; session := 47 |}.
Definition session48 : SessionKey := {| subject_id := 473361; session := 48 |}.

Definition protocol1 : PhotostimKey :=
  {| photostim_session := session47; photo_stim := 1 |}.

(** A stimulation site of [protocol1] in [area], [ml] micrometres off
    the midline. *)
Definition site (area : string) (ml : decimal_6_2) : PhotostimLocation :=
  {| master := protocol1;
     ap_location := whole 2 eq_refl;
     ml_location := ml;
     depth := whole 0 eq_refl;
     brain_area := area |}.

Definition ml_5_m3 : list PhotostimLocation :=
  [site "ALM" (whole 5 eq_refl); site "ALM" (whole (-3) eq_refl)].
Definition ml_5_7 : list PhotostimLocation :=
  [site "ALM" (whole 5 eq_refl); site "ALM" (whole 7 eq_refl)].
Definition ml_m1 : list PhotostimLocation :=
  [site "ALM" (whole (-1) eq_refl)].
Definition ml_0_0 : list PhotostimLocation :=
  [site "ALM" (whole 0 eq_refl); site "ALM" (whole 0 eq_refl)].
Definition two_areas : list PhotostimLocation :=
  [site "ALM" (whole 5 eq_refl); site "M1" (whole 5 eq_refl)].

(** A rig with one data root. Every session resolves to a folder, and
    the bitcode of every folder starts trials at 0, 2 and 4 seconds. The
    acquisition file at [binFullPath] is an analog-input recording at 1
    Hz with three channels; any other path holds [other], one channel
    of zeros. The gain stand-ins convert to float and double. *)
Definition nidq_meta : gmap string string := {[ "typeThis"%string := "nidq"%string ]}.
Definition imec_meta : gmap string string := {[ "typeThis"%string := "imec"%string ]}.

Definition recording : list (list Z) :=
  [[0; 0; 0; 0; 0; 0]; [1; 1; 1; 1; 1; 1]; [10; 20; 30; 40; 50; 60]].

Definition doubled (data : list (list Z)) (chans : list Z)
    (meta : gmap string string) : result (list (list float)) :=
  Ok (List.map (List.map (fun x => PrimFloat.mul 2%float (float_of_Z x))) data).

Definition rig (other : list (list Z)) : Experiment.Collaborators :=
  {| water_restriction_number := fun _ => Ok "DL004"%string;
     sess_datetime :=
       fun k => Ok (if session k =? 47 then "2021-03-08 10:00:00"%string
                    else "2021-03-09 10:00:00"%string);
     get_ephys_paths := ["F:\map\ephys"%string];
     _get_sess_dir :=
       fun rigpath h2o dt => (Some (String.append rigpath dt), "*.bin"%string);
     build_bitcode :=
       fun _ => Ok (["0101"; "0110"; "0111"]%string, [0%float; 2%float; 4%float]);
     readMeta :=
       fun path => Ok (if String.eqb path binFullPath then nidq_meta else imec_meta);
     SampRate := fun _ => Ok 1%float;
     makeMemMapRaw :=
       fun path _ => Ok (if String.eqb path binFullPath then recording else other);
     GainCorrectIM := doubled;
     GainCorrectNI := doubled;
     astype_int := trunc_int64 |}.

Import UnitPsth.

Definition unit541 : UnitKey :=
  {| unit_session := session47; insertion_number := 1;
     clustering_method := "kilosort2"; unit_no := 541 |}.

Definition unit7 : UnitKey :=
  {| unit_session := session48; insertion_number := 2;
     clustering_method := "kilosort2"; unit_no := 7 |}.

(** The default [align_types] of both plotting functions. *)
Definition default_align_types : list string :=
  ["trial_start"; "go_cue"; "first_lick_after_go_cue"; "iti_start";
   "next_trial_start"]%string.

Definition event (s : SessionKey) (t id : Z) (type : string) : TrialEventRow :=
  {| event_session := s; event_trial := t; trial_event_id := id;
     trial_event_type := type |}.

(** Session 47 has go cues and bitcodes but no zaber feedback; session
    48 has it. *)
Definition events : list TrialEventRow :=
  [event session47 1 0 "bitcodestart"; event session47 1 1 "go";
   event session47 2 0 "bitcodestart"; event session47 2 1 "go";
   event session48 1 0 "zaberready"; event session48 1 1 "go"].

Definition align_type_table : list AlignTypeRow :=
  [{| align_type_name := "trial_start"; trial_offset := 0;
      xlim := ((-3)%float, 2%float) |};
   {| align_type_name := "go_cue"; trial_offset := 0;
      xlim := ((-2)%float, 5%float) |};
   {| align_type_name := "next_trial_start"; trial_offset := 1;
      xlim := ((-10)%float, 3%float) |}].

Definition behavior_trial (s : SessionKey) (t : Z) : TrialKey :=
  {| trial_session := s; UnitPsth.trial := t |}.

(** Five trials in session 47 and two in session 48. *)
Definition behavior_trials : list TrialKey :=
  List.map (behavior_trial session47) [1; 2; 3; 4; 5]
  ++ List.map (behavior_trial session48) [1; 2].

Definition row (t : Z) (v : float) (rank : option Z) : Row :=
  {| row_trial := t; latent_variable := v; quantile_rank := rank |}.

(** A frame whose second trial has no latent estimate. *)
Definition frame_with_nan : list Row :=
  [row 1 0.25%float None; row 2 PrimFloat.nan None; row 3 0.75%float None].

(** A frame without missing values. *)
Definition frame_clean : list Row :=
  [row 1 0.25%float None; row 2 0.625%float None; row 3 0.75%float None].

(** One hundred trials with the same value. *)
Definition hundred_identical : list Row :=
  List.map (fun i => row (i + 1) 1%float None) (range 100).

(** A ranked frame: trials 1 and 5 in group 0, trials 2 and 3 in group 1. *)
Definition frame_ranked : list Row :=
  [row 1 0.125%float (Some 0); row 2 0.875%float (Some 1);
   row 3 0.75%float (Some 1); row 5 0.25%float (Some 0)].

(** A stand-in for [pandas.qcut] that makes two groups around 0.5; it
    only serves to run the definitions on concrete frames. *)
Definition two_groups (x : list float) (q : Z) : result (list (option Z)) :=
  Ok (List.map (fun v => Some (if PrimFloat.leb v 0.5%float then 0 else 1)) x).

Definition world (iv : list Row) : UnitPsth.Collaborators :=
  {| TrialEvent := events;
     AlignType := align_type_table;
     BehaviorTrial := behavior_trials;
     _get_unit_independent_variable := fun _ _ _ => Ok iv;
     qcut := two_groups |}.

End Examples.

(** ** [pipeline/plot/unit_psth.py]: the drawing helpers and the tuning plot *)
Module UnitPsthPlots.
Import Py.
Local Open Scope py_scope.


(** *** Rows of a raster *)

(** [np.where(raster == tr, i, current)], element by element. *)
Definition where_eq (raster : list Z) (tr i : Z) (current : list Z) : list Z :=
  List.map (fun p => if fst p =? tr then i else snd p)
           (List.combine raster current).

(** [for i, tr in enumerate(order): tr_idx = np.where(raster == tr, i, tr_idx)],
    entered with counter [i] and array [current]. *)
Fixpoint relabel_from (raster order : list Z) (i : Z) (current : list Z)
  : list Z :=
  match order with
  | [] => current
  | tr :: rest => relabel_from raster rest (i + 1) (where_eq raster tr i current)
  end.

(** The loop started on [tr_idx = raster]. *)
Definition relabel (raster order : list Z) : list Z :=
  relabel_from raster order 0 raster.

(** [a.max() if a.size > 0 else 0] *)
Definition max_or_zero (a : list Z) : Z :=
  match a with
  | [] => 0
  | x :: rest => List.fold_left Z.max rest x
  end.

(** The position of the first [x] in [order]. *)
Fixpoint index_of (x : Z) (order : list Z) : option Z :=
  match order with
  | [] => None
  | y :: rest =>
      if x =? y then Some 0
      else match index_of x rest with
           | Some j => Some (j + 1)
           | None => None
           end
  end.

(** [order] lists the distinct values of [raster], each once: what
    iterating over [set(raster)] yields, in an order Python does not
    promise. *)
Definition enumerates (order raster : list Z) : Prop :=
  NoDup order /\ forall x, In x order <-> In x raster.

(** [_plot_spike_raster], lines 22-33: the row of every ipsi spike and of
    every contra spike, given the trial of each spike and the order in
    which the two sets are iterated. *)
Definition _plot_spike_raster (ipsi_raster ipsi_order contra_raster
    contra_order : list Z) : list Z * list Z :=
  let ipsi_tr := relabel ipsi_raster ipsi_order in
  let contra_tr := relabel contra_raster contra_order in
  let ipsi_tr_max := max_or_zero ipsi_tr in
  (ipsi_tr, List.map (fun y => y + ipsi_tr_max + 1) contra_tr).

(** [_plot_spike_raster_foraging], lines 114-130: the row of every contra
    spike and of every ipsi spike; the loops run over the ['trials'] of
    each side. *)
Definition _plot_spike_raster_foraging (ipsi_raster ipsi_trials contra_raster
    contra_trials : list Z) (offset : Z) : list Z * list Z :=
  let contra_tr := relabel contra_raster contra_trials in
  let ipsi_tr := relabel ipsi_raster ipsi_trials in
  let contra_tr_max := max_or_zero contra_tr in
  let start_at := offset in
  let contra_rows := List.map (fun y => y + start_at + 1) contra_tr in
  let start_at := start_at + contra_tr_max in
  (contra_rows, List.map (fun y => y + start_at) ipsi_tr).

(** *** Condition names *)

(** [plot_unit_psth], lines 72-84: the names of the four conditions, in
    the order ipsi hit, contra hit, ipsi miss, contra miss. *)
Definition plot_unit_psth_conditions (hemi : string) : list string :=
  let ipsi := if String.eqb hemi "left" then "left" else "right" in
  let contra := if String.eqb hemi "left" then "right" else "left" in
  [String.append "good_noearlylick_" (String.append ipsi "_hit");
   String.append "good_noearlylick_" (String.append contra "_hit");
   String.append "good_noearlylick_" (String.append ipsi "_miss");
   String.append "good_noearlylick_" (String.append contra "_miss")].

(** [plot_unit_psth_choice_outcome], lines 249-252 and 279-288: the same
    four, for the foraging task. *)
Definition choice_outcome_conditions (hemi : string)
    (if_exclude_early_lick : bool) : list string :=
  let ipsi := if String.eqb hemi "left" then "L" else "R" in
  let contra := if String.eqb hemi "left" then "R" else "L" in
  let no_early_lick := if if_exclude_early_lick then "_noearlylick" else "" in
  [String.append ipsi (String.append "_hit" no_early_lick);
   String.append contra (String.append "_hit" no_early_lick);
   String.append ipsi (String.append "_miss" no_early_lick);
   String.append contra (String.append "_miss" no_early_lick)].

(** *** [plot_unit_period_tuning], lines 447-464 *)

(** [max(a)] of Python and [np.min(a)], [np.max(a)] of numpy: an empty
    argument is an error. *)
Definition py_max (a : list Z) : result Z :=
  match a with
  | [] => Raise (ValueError "max() arg is an empty sequence")
  | x :: rest => Ok (List.fold_left Z.max rest x)
  end.

Definition np_min (a : list Z) : result Z :=
  match a with
  | [] => Raise (ValueError "zero-size array to reduction operation minimum which has no identity")
  | x :: rest => Ok (List.fold_left Z.min rest x)
  end.

Definition np_max (a : list Z) : result Z :=
  match a with
  | [] => Raise (ValueError "zero-size array to reduction operation maximum which has no identity")
  | x :: rest => Ok (List.fold_left Z.max rest x)
  end.

(** [np.arange(lo, hi)] *)
Definition arange (lo hi : Z) : list Z :=
  List.map (fun i => lo + Z.of_nat i) (List.seq 0 (Z.to_nat (hi - lo))).

(** [a[idx]] for an array of integer indices. *)
Definition take_indices {A} (a : list A) (idx : list Z) : result (list A) :=
  for_each (getitem a) idx.

(** [a[i] = v]: a negative index counts from the end; out of range
    raises. *)
Definition setitem {A} (a : list A) (i : Z) (v : A) : result (list A) :=
  let j := if i <? 0 then i + len a else i in
  if (j <? 0) || (len a <=? j) then Raise IndexError
  else Ok (<[Z.to_nat j := v]> a).

(** [a[idx] = vals] for an array of integer indices and as many values. *)
Fixpoint put_indices {A} (a : list A) (idx : list Z) (vals : list A)
  : result (list A) :=
  match idx, vals with
  | i :: idx', v :: vals' =>
      let* a' := setitem a i v in put_indices a' idx' vals'
  | _, _ => Ok a
  end.

(** Lines 447-464, for the firing rate: the model trials that have ephys,
    their firing rates, and the firing rates laid out over
    [trial_with_nan] with NaN in the gaps. The arguments are
    [all_iv.trial], [period_activity['trial']] and
    [period_activity['firing_rates']]. *)
Definition period_firing_with_nan (iv_trial pa_trial : list Z)
    (firing_rates : list float) : result (list Z * list float) :=
  let* last_ephys := py_max pa_trial in
  let trial := List.filter (fun t => t <=? last_ephys) iv_trial in
  let* firing := take_indices firing_rates (List.map (fun t => t - 1) trial) in
  let* lo := np_min trial in
  let* hi := np_max (List.map (fun t => t + 1) trial) in
  let trial_with_nan := arange lo hi in
  let firing_with_nan := List.repeat PrimFloat.nan (List.length trial_with_nan) in
  let* firing_with_nan :=
    put_indices firing_with_nan (List.map (fun t => t - 1) trial) firing in
  Ok (trial_with_nan, firing_with_nan).

End UnitPsthPlots.

(** ** [pipeline/experiment.py]: [PassivePhotostimTrial] *)
Module Passive.
Import Py Experiment.
Local Open Scope py_scope.

(** Primary key of [SessionTrial], shared by [PhotostimTrial],
    [BehaviorTrial] and [PassivePhotostimTrial]. *)
Record SessionTrialKey : Type := {
  trial_session : SessionKey;
  trial : Z
}.

Definition SessionTrialKey_eqb (k1 k2 : SessionTrialKey) : bool :=
  SessionKey_eqb (trial_session k1) (trial_session k2) && (trial k1 =? trial k2).

(** [k in table], for a table seen through its primary keys. *)
Definition has_key (table : list SessionTrialKey) (k : SessionTrialKey) : bool :=
  List.existsb (SessionTrialKey_eqb k) table.

(** Line 504: [key_source = PhotostimTrial() - BehaviorTrial()], the
    photostim trials without a behavior trial of the same key. *)
Definition key_source (PhotostimTrial BehaviorTrial : list SessionTrialKey)
  : list SessionTrialKey :=
  List.filter (fun k => negb (has_key BehaviorTrial k)) PhotostimTrial.

(** [self.insert1(key)] *)
Definition insert1 (k : SessionTrialKey) : M (list SessionTrialKey) unit :=
  fun table =>
    if has_key table k
    then (Raise (DataJointError "Duplicate entry"), table)
    else (Ok tt, table ++ [k]).

(** Lines 506-507: [PassivePhotostimTrial.make(self, key)] *)
Definition PassivePhotostimTrial_make (k : SessionTrialKey)
  : M (list SessionTrialKey) unit :=
  insert1 k.

(** [make] for each key in turn, stopping at the first exception. *)
Fixpoint make_each (keys : list SessionTrialKey) : M (list SessionTrialKey) unit :=
  match keys with
  | [] => ret tt
  | k :: rest => let! _ := PassivePhotostimTrial_make k in make_each rest
  end.

(** [PassivePhotostimTrial.populate()]: [make] is called on the keys of
    [key_source] that the table does not have yet. *)
Definition populate (PhotostimTrial BehaviorTrial : list SessionTrialKey)
  : M (list SessionTrialKey) unit :=
  fun table =>
    make_each
      (List.filter (fun k => negb (has_key table k))
                   (key_source PhotostimTrial BehaviorTrial))
      table.

End Passive.

(** ** More concrete data *)
Module MoreExamples.
Import Py Scalar Experiment.

(** The example rig with a chosen [.meta] content and a chosen raw
    buffer behind every path. *)
Definition rig_with (meta : gmap string string) (rec : list (list Z))
  : Experiment.Collaborators :=
  {| water_restriction_number := water_restriction_number (Examples.rig []);
     sess_datetime := sess_datetime (Examples.rig []);
     get_ephys_paths := get_ephys_paths (Examples.rig []);
     _get_sess_dir := _get_sess_dir (Examples.rig []);
     build_bitcode := build_bitcode (Examples.rig []);
     readMeta := fun _ => Ok meta;
     SampRate := SampRate (Examples.rig []);
     makeMemMapRaw := fun _ _ => Ok rec;
     GainCorrectIM := Examples.doubled;
     GainCorrectNI := Examples.doubled;
     astype_int := trunc_int64 |}.

(** A recording with two channels only. *)
Definition two_channels : list (list Z) :=
  [[0; 0; 0; 0; 0; 0]; [1; 1; 1; 1; 1; 1]].

(** The trial of each spike of two rasters. On the ipsi side trials 7, 8
    and 9 have spikes, on the contra side trials 3, 4 and 5. *)
Definition ipsi_spikes : list Z := [7; 7; 9; 8].
Definition contra_spikes : list Z := [3; 5; 3; 4].

(** Two iteration orders of the sets of these trials. *)
Definition ipsi_set_order : list Z := [9; 7; 8].
Definition contra_set_order : list Z := [5; 3; 4].

(** The trial lists of the two sides in the foraging plot. *)
Definition ipsi_trial_list : list Z := [7; 8; 9].
Definition contra_trial_list : list Z := [3; 4; 5].

(** Three photostim trials of session 47, the second of which is also a
    behavior trial. *)
Definition session_trial (t : Z) : Passive.SessionTrialKey :=
  {| Passive.trial_session := Examples.session47; Passive.trial := t |}.
Definition photostim_trials : list Passive.SessionTrialKey :=
  [session_trial 1; session_trial 2; session_trial 3].
Definition behavior_trial_keys : list Passive.SessionTrialKey :=
  [session_trial 2].

(** Five ephys trials with their firing rates, and the trials of two
    model fits: one that ignored trial 1, one that ignored trial 2 and
    goes on beyond the ephys. *)
Definition ephys_trials : list Z := [1; 2; 3; 4; 5].
Definition rates : list float := [10%float; 20%float; 30%float; 40%float; 50%float].
Definition model_trials_from_2 : list Z := [2; 3; 5].
Definition model_trials_from_1 : list Z := [1; 3; 4; 9].

End MoreExamples.

(* ===================================================================== *)
(** * Part II. Properties                                                 *)
(* ===================================================================== *)

(** ** Scalars: the sign of a decimal survives the conversion to float *)
Section DecimalSign.
Import Scalar.

Lemma forall_block_spec (P : Z -> bool) (d : nat) :
  forall base, forall_block P d base = true ->
  forall z, base <= z < base + 2 ^ Z.of_nat d -> P z = true.
Proof.
  induction d as [|d IH]; intros base Hb z Hz.
  - simpl in *. assert (z = base) by lia. subst. exact Hb.
  - cbn [forall_block] in Hb. apply andb_true_iff in Hb as [H1 H2].
    rewrite Nat2Z.inj_succ, Z.pow_succ_r in Hz by lia.
    destruct (Z_lt_ge_dec z (base + 2 ^ Z.of_nat d)).
    + apply (IH base H1). lia.
    + apply (IH _ H2). lia.
Qed.

Lemma sign_agrees_all : forall_block sign_agrees 21 (-1048576) = true.
Proof. vm_compute. reflexivity. Qed.

Lemma float_of_decimal_sign (d : decimal_6_2) :
  gt0 (float_of_decimal d) = (0 <? hundredths d)
  /\ lt0 (float_of_decimal d) = (hundredths d <? 0)
  /\ eq0 (float_of_decimal d) = (hundredths d =? 0).
Proof.
  destruct d as [c Hc]. unfold float_of_decimal. cbn [hundredths].
  assert (Hs : sign_agrees c = true).
  { apply (forall_block_spec _ _ _ sign_agrees_all).
    apply Z.leb_le in Hc. change (2 ^ Z.of_nat 21) with 2097152. lia. }
  unfold sign_agrees in Hs. rewrite Hc in Hs.
  apply andb_true_iff in Hs as [Hs H3]. apply andb_true_iff in Hs as [H1 H2].
  apply Bool.eqb_prop in H1, H2, H3. auto.
Qed.

End DecimalSign.

(** ** The laterality resolver *)
Section Laterality.
Import Py Scalar Experiment.

(** The medial coordinate of a row, in hundredths. *)
Local Abbreviation ml r := (hundredths (ml_location r)).

Lemma areas_single (l : list string) (a : string) :
  (forall x, In x l -> x = a) ->
  (size (list_to_set (C := gset string) l) <= 1)%nat.
Proof.
  intros Hall.
  assert (Hsub : list_to_set (C := gset string) l ⊆ {[a]}).
  { intros x Hx. apply elem_of_list_to_set in Hx.
    apply list_elem_of_In in Hx. apply Hall in Hx. set_solver. }
  apply subseteq_size in Hsub. rewrite size_singleton in Hsub. exact Hsub.
Qed.

Lemma areas_several (l : list string) (x y : string) :
  In x l -> In y l -> x <> y ->
  (1 < size (list_to_set (C := gset string) l))%nat.
Proof.
  intros Hx Hy Hne.
  assert (Hsub : ({[x]} ∪ {[y]} : gset string) ⊆ list_to_set l).
  { intros z Hz. apply elem_of_list_to_set. apply list_elem_of_In.
    apply elem_of_union in Hz as [Hz|Hz]; apply elem_of_singleton in Hz;
      subst; assumption. }
  apply subseteq_size in Hsub.
  rewrite size_union in Hsub by set_solver.
  rewrite !size_singleton in Hsub. lia.
Qed.

Lemma any_gt0 (rows : list PhotostimLocation) :
  any gt0 (List.map (fun r => float_of_decimal (ml_location r)) rows) = true
  <-> exists r, In r rows /\ 0 < ml r.
Proof.
  unfold any. rewrite existsb_exists. split.
  - intros (x & Hx & Hp). apply in_map_iff in Hx as (r & <- & Hr).
    exists r. split; [assumption|].
    destruct (float_of_decimal_sign (ml_location r)) as (H1 & _).
    rewrite H1 in Hp. apply Z.ltb_lt in Hp. exact Hp.
  - intros (r & Hr & Hp). exists (float_of_decimal (ml_location r)). split.
    + apply in_map_iff. eauto.
    + destruct (float_of_decimal_sign (ml_location r)) as (H1 & _).
      rewrite H1. apply Z.ltb_lt. exact Hp.
Qed.

Lemma any_lt0 (rows : list PhotostimLocation) :
  any lt0 (List.map (fun r => float_of_decimal (ml_location r)) rows) = true
  <-> exists r, In r rows /\ ml r < 0.
Proof.
  unfold any. rewrite existsb_exists. split.
  - intros (x & Hx & Hp). apply in_map_iff in Hx as (r & <- & Hr).
    exists r. split; [assumption|].
    destruct (float_of_decimal_sign (ml_location r)) as (_ & H2 & _).
    rewrite H2 in Hp. apply Z.ltb_lt in Hp. exact Hp.
  - intros (r & Hr & Hp). exists (float_of_decimal (ml_location r)). split.
    + apply in_map_iff. eauto.
    + destruct (float_of_decimal_sign (ml_location r)) as (_ & H2 & _).
      rewrite H2. apply Z.ltb_lt. exact Hp.
Qed.

Lemma all_gt0 (rows : list PhotostimLocation) :
  all gt0 (List.map (fun r => float_of_decimal (ml_location r)) rows) = true
  <-> forall r, In r rows -> 0 < ml r.
Proof.
  unfold all. rewrite forallb_forall. split.
  - intros H r Hr.
    destruct (float_of_decimal_sign (ml_location r)) as (H1 & _).
    apply Z.ltb_lt. rewrite <- H1. apply H. apply in_map_iff. eauto.
  - intros H x Hx. apply in_map_iff in Hx as (r & <- & Hr).
    destruct (float_of_decimal_sign (ml_location r)) as (H1 & _).
    rewrite H1. apply Z.ltb_lt. auto.
Qed.

Lemma all_lt0 (rows : list PhotostimLocation) :
  all lt0 (List.map (fun r => float_of_decimal (ml_location r)) rows) = true
  <-> forall r, In r rows -> ml r < 0.
Proof.
  unfold all. rewrite forallb_forall. split.
  - intros H r Hr.
    destruct (float_of_decimal_sign (ml_location r)) as (_ & H2 & _).
    apply Z.ltb_lt. rewrite <- H2. apply H. apply in_map_iff. eauto.
  - intros H x Hx. apply in_map_iff in Hx as (r & <- & Hr).
    destruct (float_of_decimal_sign (ml_location r)) as (_ & H2 & _).
    rewrite H2. apply Z.ltb_lt. auto.
Qed.

Lemma all_eq0 (rows : list PhotostimLocation) :
  all eq0 (List.map (fun r => float_of_decimal (ml_location r)) rows) = true
  <-> forall r, In r rows -> ml r = 0.
Proof.
  unfold all. rewrite forallb_forall. split.
  - intros H r Hr.
    destruct (float_of_decimal_sign (ml_location r)) as (_ & _ & H3).
    apply Z.eqb_eq. rewrite <- H3. apply H. apply in_map_iff. eauto.
  - intros H x Hx. apply in_map_iff in Hx as (r & <- & Hr).
    destruct (float_of_decimal_sign (ml_location r)) as (_ & _ & H3).
    rewrite H3. apply Z.eqb_eq. auto.
Qed.

(** The area check passes on rows of one area, and the first area is it. *)
Lemma resolve_single_area (rows : list PhotostimLocation) (a : string) :
  rows <> [] ->
  (forall r, In r rows -> brain_area r = a) ->
  (1 <? Z.of_nat (size (list_to_set (C := gset string)
                          (List.map brain_area rows)))) = false
  /\ getitem (List.map brain_area rows) 0 = Ok a.
Proof.
  intros Hne Hall. split.
  - apply Z.ltb_ge.
    assert (size (list_to_set (C := gset string) (List.map brain_area rows)) <= 1)%nat.
    { apply (areas_single _ a). intros x Hx.
      apply in_map_iff in Hx as (r & <- & Hr). auto. }
    lia.
  - destruct rows as [|r rows]; [congruence|].
    unfold getitem, len. cbn [List.map List.length].
    rewrite (Hall r (or_introl eq_refl)).
    change (0 <? 0) with false. cbv iota.
    replace (0 <? 0) with false by reflexivity. simpl orb.
    destruct (Z.of_nat (S (List.length (List.map brain_area rows))) <=? 0) eqn:E.
    + apply Z.leb_le in E. lia.
    + reflexivity.
Qed.

(** C2. For the rows of one protocol (at least one row, all of one brain
    area [a]) the resolver returns [a] with laterality "both" when some
    medial coordinate is above 0 and some is below 0, "right" when all
    are above 0, "left" when all are below 0, and it raises the
    ambiguous-hemisphere error when all are exactly 0. *)
Theorem laterality_resolution (rows : list PhotostimLocation) (a : string) :
  rows <> [] ->
  (forall r, In r rows -> brain_area r = a) ->
  ((exists r, In r rows /\ 0 < ml r) /\ (exists r, In r rows /\ ml r < 0) ->
     resolve rows = Ok (a, Both))
  /\ ((forall r, In r rows -> 0 < ml r) -> resolve rows = Ok (a, Right))
  /\ ((forall r, In r rows -> ml r < 0) -> resolve rows = Ok (a, Left))
  /\ ((forall r, In r rows -> ml r = 0) -> resolve rows = Raise ambiguous).
Proof.
  intros Hne Harea.
  destruct (resolve_single_area rows a Hne Harea) as [Hsize Hfirst].
  assert (Hsome : exists r, In r rows).
  { destruct rows as [|r ?]; [congruence|]. exists r. left. reflexivity. }
  destruct Hsome as [r0 Hr0].
  unfold resolve. rewrite Hsize, Hfirst.
  repeat split.
  - intros [Hpos Hneg].
    apply any_gt0 in Hpos. apply any_lt0 in Hneg.
    rewrite Hpos, Hneg. reflexivity.
  - intros Hall.
    assert (Hn : any lt0 (List.map (fun r => float_of_decimal (ml_location r)) rows) = false).
    { apply not_true_is_false. intros H. apply any_lt0 in H as (r & Hr & Hlt).
      specialize (Hall r Hr). lia. }
    rewrite Hn, andb_false_r.
    apply all_gt0 in Hall. rewrite Hall. reflexivity.
  - intros Hall.
    assert (Hp : any gt0 (List.map (fun r => float_of_decimal (ml_location r)) rows) = false).
    { apply not_true_is_false. intros H. apply any_gt0 in H as (r & Hr & Hgt).
      specialize (Hall r Hr). lia. }
    assert (Hg : all gt0 (List.map (fun r => float_of_decimal (ml_location r)) rows) = false).
    { apply not_true_is_false. intros H.
      pose proof (proj1 (all_gt0 rows) H r0 Hr0). specialize (Hall r0 Hr0). lia. }
    rewrite Hp, Hg. cbn [andb].
    apply all_lt0 in Hall. rewrite Hall. reflexivity.
  - intros Hall.
    assert (Hp : any gt0 (List.map (fun r => float_of_decimal (ml_location r)) rows) = false).
    { apply not_true_is_false. intros H. apply any_gt0 in H as (r & Hr & Hgt).
      specialize (Hall r Hr). lia. }
    assert (Hg : all gt0 (List.map (fun r => float_of_decimal (ml_location r)) rows) = false).
    { apply not_true_is_false. intros H.
      pose proof (proj1 (all_gt0 rows) H r0 Hr0). specialize (Hall r0 Hr0). lia. }
    assert (Hl : all lt0 (List.map (fun r => float_of_decimal (ml_location r)) rows) = false).
    { apply not_true_is_false. intros H.
      pose proof (proj1 (all_lt0 rows) H r0 Hr0). specialize (Hall r0 Hr0). lia. }
    rewrite Hp, Hg, Hl. cbn [andb].
    apply all_eq0 in Hall. rewrite Hall. reflexivity.
Qed.

(** The four sets of medial coordinates that the specification lists:
    [5, -3], [5, 7], [-1] and [0, 0]. *)
Lemma laterality_resolution_examples :
  resolve Examples.ml_5_m3 = Ok ("ALM"%string, Both)
  /\ resolve Examples.ml_5_7 = Ok ("ALM"%string, Right)
  /\ resolve Examples.ml_m1 = Ok ("ALM"%string, Left)
  /\ resolve Examples.ml_0_0 = Raise ambiguous.
Proof.
  assert (Harea : forall rows, Forall (fun r => brain_area r = "ALM"%string) rows ->
                  forall r, In r rows -> brain_area r = "ALM"%string).
  { intros rows H. apply List.Forall_forall. exact H. }
  assert (Hne : forall (r : PhotostimLocation) rows, r :: rows <> []).
  { intros r rows H. discriminate H. }
  split; [|split; [|split]].
  - refine (proj1 (laterality_resolution Examples.ml_5_m3 "ALM"
                     (Hne _ _) (Harea _ _)) _).
    + repeat constructor.
    + split.
      * exists (Examples.site "ALM" (whole 5 eq_refl)).
        split; [left; reflexivity | reflexivity].
      * exists (Examples.site "ALM" (whole (-3) eq_refl)).
        split; [right; left; reflexivity | reflexivity].
  - refine (proj1 (proj2 (laterality_resolution Examples.ml_5_7 "ALM"
                     (Hne _ _) (Harea _ _))) _).
    + repeat constructor.
    + intros r [<-|[<-|[]]]; reflexivity.
  - refine (proj1 (proj2 (proj2 (laterality_resolution Examples.ml_m1 "ALM"
                     (Hne _ _) (Harea _ _)))) _).
    + repeat constructor.
    + intros r [<-|[]]; reflexivity.
  - refine (proj2 (proj2 (proj2 (laterality_resolution Examples.ml_0_0 "ALM"
                     (Hne _ _) (Harea _ _)))) _).
    + repeat constructor.
    + intros r [<-|[<-|[]]]; reflexivity.
Defined.

(** A zero coordinate next to a nonzero one on one side only: none of
    the three labels applies, and the sanity check of the last branch
    fails. *)
Lemma resolve_zero_and_positive :
  resolve [Examples.site "ALM" (whole 5 eq_refl);
           Examples.site "ALM" (whole 0 eq_refl)] = Raise AssertionError.
Proof. vm_compute. reflexivity. Qed.

Lemma make_of_resolve (locations : list PhotostimLocation) (k : PhotostimKey)
    (table : list PhotostimBrainRegion) :
  PhotostimBrainRegion_make locations k table =
  match resolve (restrict_locations k locations) with
  | Ok r => insert1 {| key := k; stim_brain_area := fst r;
                       stim_laterality := snd r |} table
  | Raise e => (Raise e, table)
  end.
Proof.
  unfold PhotostimBrainRegion_make, mbind, lift.
  destruct (resolve (restrict_locations k locations)); reflexivity.
Qed.

Lemma resolve_area (rows : list PhotostimLocation) (a : string) :
  rows <> [] ->
  (forall r, In r rows -> brain_area r = a) ->
  forall r, resolve rows = Ok r -> fst r = a.
Proof.
  intros Hne Harea r.
  destruct (resolve_single_area rows a Hne Harea) as [Hsize Hfirst].
  unfold resolve. rewrite Hsize, Hfirst.
  match goal with
  | |- bind ?lat _ = _ -> _ => destruct lat as [l|e]
  end; cbn [bind]; intros H; inversion H; reflexivity.
Qed.

(** C8. When the rows of a protocol report two different brain areas,
    [make] raises the configuration error and leaves the table as it
    was; when they all report one area [a] and [make] returns, the row
    it has inserted carries [a]. *)
Theorem brain_area_consistency (locations : list PhotostimLocation)
    (k : PhotostimKey) (table : list PhotostimBrainRegion) :
  ((exists r1 r2, In r1 (restrict_locations k locations)
                  /\ In r2 (restrict_locations k locations)
                  /\ brain_area r1 <> brain_area r2) ->
     PhotostimBrainRegion_make locations k table = (Raise several_areas, table))
  /\ (forall a table',
        restrict_locations k locations <> [] ->
        (forall r, In r (restrict_locations k locations) -> brain_area r = a) ->
        PhotostimBrainRegion_make locations k table = (Ok tt, table') ->
        exists lat,
          table' = table ++ [{| key := k; stim_brain_area := a;
                                stim_laterality := lat |}]).
Proof.
  split.
  - intros (r1 & r2 & H1 & H2 & Hne).
    rewrite make_of_resolve. unfold resolve.
    assert (Hs : (1 <? Z.of_nat (size (list_to_set (C := gset string)
              (List.map brain_area (restrict_locations k locations))))) = true).
    { apply Z.ltb_lt.
      assert (1 < size (list_to_set (C := gset string)
                (List.map brain_area (restrict_locations k locations))))%nat.
      { apply (areas_several _ (brain_area r1) (brain_area r2));
          [apply in_map; assumption | apply in_map; assumption | assumption]. }
      lia. }
    rewrite Hs. reflexivity.
  - intros a table' Hne Harea. rewrite make_of_resolve.
    destruct (resolve (restrict_locations k locations)) as [r|e] eqn:Hr.
    + pose proof (resolve_area _ a Hne Harea r Hr) as Ha.
      unfold insert1.
      destruct (existsb _ table); intros H; inversion H; subst.
      exists (snd r). reflexivity.
    + intros H. inversion H.
Qed.

(** [brain_area_consistency] on two sites in "ALM" and "M1", and on the
    two "ALM" sites at 5 and 7 micrometres. *)
Lemma brain_area_consistency_examples :
  PhotostimBrainRegion_make Examples.two_areas Examples.protocol1 []
    = (Raise several_areas, [])
  /\ exists lat,
       snd (PhotostimBrainRegion_make Examples.ml_5_7 Examples.protocol1 [])
       = [] ++ [{| key := Examples.protocol1; stim_brain_area := "ALM";
                   stim_laterality := lat |}].
Proof.
  split.
  - apply (proj1 (brain_area_consistency Examples.two_areas Examples.protocol1 [])).
    exists (Examples.site "ALM" (whole 5 eq_refl)),
           (Examples.site "M1" (whole 5 eq_refl)).
    repeat split; [left; reflexivity | right; left; reflexivity | discriminate].
  - apply (proj2 (brain_area_consistency Examples.ml_5_7 Examples.protocol1 [])
                 "ALM"%string).
    + discriminate.
    + intros r [<-|[<-|[]]]; reflexivity.
    + vm_compute. reflexivity.
Defined.

End Laterality.

(** ** Alignment names *)
Section AlignmentFallback.
Import Py UnitPsth.

Lemma prefix_append (needle hay : string) :
  String.prefix needle hay = true
  <-> exists post, hay = String.append needle post.
Proof.
  revert hay. induction needle as [|a needle IH]; intros hay.
  - split; [intros _; exists hay; reflexivity|].
    intros _. destruct hay; reflexivity.
  - destruct hay as [|b hay]; cbn [String.prefix String.append].
    + split; [discriminate|]. intros [post H]. discriminate H.
    + destruct (ascii_dec a b) as [->|Hab].
      * rewrite IH. split; intros [post H]; exists post.
        -- rewrite H. reflexivity.
        -- inversion H. reflexivity.
      * split; [discriminate|]. intros [post H]. inversion H. congruence.
Qed.

(** [contains] decides occurrence as a substring. *)
Lemma contains_occurs_in (needle hay : string) :
  contains needle hay = true <-> occurs_in needle hay.
Proof.
  unfold occurs_in. induction hay as [|c hay IH]; cbn [contains].
  - destruct (String.prefix needle EmptyString) eqn:E.
    + split; [|reflexivity]. intros _.
      apply prefix_append in E as [post E]. exists EmptyString, post. exact E.
    + split; [discriminate|]. intros (pre & post & H).
      destruct pre; cbn [String.append] in H; [|discriminate H].
      assert (String.prefix needle EmptyString = true)
        by (apply prefix_append; eauto).
      congruence.
  - destruct (String.prefix needle (String c hay)) eqn:E.
    + split; [|reflexivity]. intros _.
      apply prefix_append in E as [post E]. exists EmptyString, post. exact E.
    + rewrite IH. split.
      * intros (pre & post & H). exists (String c pre), post.
        cbn [String.append]. rewrite H. reflexivity.
      * intros (pre & post & H). destruct pre as [|d pre]; cbn [String.append] in H.
        -- assert (String.prefix needle (String c hay) = true)
             by (apply prefix_append; eauto).
           congruence.
        -- inversion H. eauto.
Qed.

Lemma SessionKey_eqb_eq (k1 k2 : Experiment.SessionKey) :
  Experiment.SessionKey_eqb k1 k2 = true <-> k1 = k2.
Proof.
  unfold Experiment.SessionKey_eqb. rewrite andb_true_iff, !Z.eqb_eq.
  destruct k1, k2; cbn. split.
  - intros [-> ->]. reflexivity.
  - intros H. inversion H. auto.
Qed.

Lemma zaberready_events_nil (env : Collaborators) (unit_key : UnitKey) :
  zaberready_events env unit_key = [] <-> no_zaberready env unit_key.
Proof.
  unfold zaberready_events, no_zaberready. split.
  - intros Hnil e He Hs Ht.
    assert (Hin : In e (List.filter
      (fun e => Experiment.SessionKey_eqb (event_session e) (unit_session unit_key)
                && String.eqb (trial_event_type e) "zaberready") (TrialEvent env))).
    { apply filter_In. split; [assumption|].
      apply andb_true_iff. split.
      - apply SessionKey_eqb_eq. assumption.
      - apply String.eqb_eq. assumption. }
    rewrite Hnil in Hin. destruct Hin.
  - intros H.
    destruct (List.filter _ (TrialEvent env)) as [|e l] eqn:E; [reflexivity|].
    assert (Hin : In e (e :: l)) by (left; reflexivity).
    rewrite <- E in Hin. apply filter_In in Hin as [He Hb].
    apply andb_true_iff in Hb as [Hs Ht].
    apply SessionKey_eqb_eq in Hs. apply String.eqb_eq in Ht.
    exfalso. exact (H e He Hs Ht).
Qed.

Lemma resolve_align_types_cases (env : Collaborators) (unit_key : UnitKey)
    (align_types : list string) :
  resolve_align_types env unit_key align_types =
  match zaberready_events env unit_key with
  | [] => List.map bitcode_name align_types
  | _ :: _ => align_types
  end.
Proof.
  unfold resolve_align_types, len.
  destruct (zaberready_events env unit_key) as [|e l]; [reflexivity|].
  cbn [List.length].
  replace (0 <? Z.of_nat (S (List.length l))) with true; [reflexivity|].
  symmetry. apply Z.ltb_lt. lia.
Qed.

(** C3. If the session of the unit has no "zaberready" trial event, the
    list of alignment names keeps its length and order, every name in
    which "trial_start" occurs gets the suffix "_bitcode" and every
    other name stays as it is; if the session has such an event, the
    list is used as it is. One test of the session decides for the
    whole list. *)
Theorem alignment_fallback (env : Collaborators) (unit_key : UnitKey)
    (align_types : list string) :
  (no_zaberready env unit_key ->
     List.length (resolve_align_types env unit_key align_types)
       = List.length align_types
     /\ forall i a, List.nth_error align_types i = Some a ->
          (occurs_in "trial_start" a ->
             List.nth_error (resolve_align_types env unit_key align_types) i
               = Some (String.append a "_bitcode"))
          /\ (~ occurs_in "trial_start" a ->
               List.nth_error (resolve_align_types env unit_key align_types) i
                 = Some a))
  /\ (~ no_zaberready env unit_key ->
        resolve_align_types env unit_key align_types = align_types).
Proof.
  rewrite resolve_align_types_cases. split.
  - intros Hno. apply zaberready_events_nil in Hno. rewrite Hno.
    split; [apply List.length_map|].
    intros i a Hi. rewrite List.nth_error_map, Hi. cbn [option_map].
    unfold bitcode_name. split.
    + intros Hocc. apply contains_occurs_in in Hocc. rewrite Hocc. reflexivity.
    + intros Hocc. destruct (contains "trial_start" a) eqn:E; [|reflexivity].
      apply contains_occurs_in in E. contradiction.
  - intros Hsome.
    destruct (zaberready_events env unit_key) eqn:E; [|reflexivity].
    exfalso. apply Hsome. apply zaberready_events_nil. exact E.
Qed.

(** [alignment_fallback] on the default list: for a unit of session 47,
    which has no zaber feedback, and for a unit of session 48, which
    has. *)
Lemma alignment_fallback_examples :
  (List.nth_error
     (resolve_align_types (Examples.world []) Examples.unit541
        Examples.default_align_types) 0
   = Some "trial_start_bitcode"%string
   /\ List.nth_error
        (resolve_align_types (Examples.world []) Examples.unit541
           Examples.default_align_types) 1
      = Some "go_cue"%string
   /\ List.nth_error
        (resolve_align_types (Examples.world []) Examples.unit541
           Examples.default_align_types) 4
      = Some "next_trial_start_bitcode"%string)
  /\ resolve_align_types (Examples.world []) Examples.unit7
       Examples.default_align_types
     = Examples.default_align_types.
Proof.
  assert (Hno : no_zaberready (Examples.world []) Examples.unit541).
  { intros e He Hs.
    cbn in He.
    repeat (destruct He as [<-|He]; [first [discriminate | (cbn in Hs; discriminate Hs)]|]).
    destruct He. }
  assert (Hyes : ~ no_zaberready (Examples.world []) Examples.unit7).
  { intros H.
    apply (H (Examples.event Examples.session48 1 0 "zaberready")).
    - cbn. do 4 right. left. reflexivity.
    - reflexivity.
    - reflexivity. }
  pose proof (alignment_fallback (Examples.world []) Examples.unit541
                Examples.default_align_types) as [Hfall _].
  pose proof (alignment_fallback (Examples.world []) Examples.unit7
                Examples.default_align_types) as [_ Hkeep].
  destruct (Hfall Hno) as [_ Hnth].
  split; [split; [|split]|].
  - apply (proj1 (Hnth 0%nat "trial_start"%string eq_refl)).
    exists EmptyString, EmptyString. reflexivity.
  - apply (proj2 (Hnth 1%nat "go_cue"%string eq_refl)).
    intros H. apply contains_occurs_in in H. discriminate H.
  - apply (proj1 (Hnth 4%nat "next_trial_start"%string eq_refl)).
    exists "next_"%string, EmptyString. reflexivity.
  - exact (Hkeep Hyes).
Defined.

End AlignmentFallback.

(** ** Quantile groups *)
Section QuantileGroups.
Import Py UnitPsth.

Lemma nan_guard_fires (df : list Row) :
  any PrimFloat.is_nan (List.map latent_variable df) = true
  <-> exists r, In r df /\ PrimFloat.is_nan (latent_variable r) = true.
Proof.
  unfold any. rewrite existsb_exists. split.
  - intros (x & Hx & Hn). apply in_map_iff in Hx as (r & <- & Hr). eauto.
  - intros (r & Hr & Hn). exists (latent_variable r).
    split; [apply in_map; assumption | assumption].
Qed.

Lemma assign_ranks_columns (df : list Row) (ranks : list (option Z)) :
  List.length ranks = List.length df ->
  List.map row_trial (assign_ranks df ranks) = List.map row_trial df
  /\ List.map latent_variable (assign_ranks df ranks)
     = List.map latent_variable df
  /\ List.map quantile_rank (assign_ranks df ranks) = ranks.
Proof.
  unfold assign_ranks. revert ranks.
  induction df as [|r df IH]; intros [|q ranks] Hlen; try discriminate Hlen.
  - auto.
  - cbn [List.combine List.map fst snd set_rank row_trial latent_variable
         quantile_rank].
    cbn in Hlen. injection Hlen as Hlen.
    destruct (IH ranks Hlen) as (H1 & H2 & H3).
    rewrite H1, H2, H3. auto.
Qed.

(** One missing value stops everything: the frame of three trials whose
    second value is NaN is not cut at all, and the plotting function
    returns [None] although two of its values are finite. *)
Lemma missing_value_counterexample :
  (PrimFloat.is_nan (latent_variable (Examples.row 1 0.25%float None)) = false
   /\ PrimFloat.is_nan (latent_variable (Examples.row 3 0.75%float None)) = false)
  /\ cut_into_quantiles (Examples.world Examples.frame_with_nan)
       Examples.frame_with_nan 5
     = Ok (PrintedAndReturned no_data_message)
  /\ plot_unit_psth_latent_variable_quantile
       (Examples.world Examples.frame_with_nan) Examples.unit541 11 5
       Examples.default_align_types "contra_action_value"
     = Ok None.
Proof. vm_compute. auto. Qed.

(** C4, as the code has it. A series with a NaN entry is not cut: the
    function prints its message and returns, and no entry, finite or
    not, is put in a group. A series without NaN is handed whole to the
    quantile cut, and every row receives the rank at its position. *)
Theorem missing_values_stop_the_cut (env : Collaborators) (df : list Row)
    (n_quantile : Z) :
  ((exists r, In r df /\ PrimFloat.is_nan (latent_variable r) = true) ->
     cut_into_quantiles env df n_quantile
       = Ok (PrintedAndReturned no_data_message))
  /\ ((forall r, In r df -> PrimFloat.is_nan (latent_variable r) = false) ->
      forall ranks,
        qcut env (List.map latent_variable df) n_quantile = Ok ranks ->
        List.length ranks = List.length df ->
        exists df',
          cut_into_quantiles env df n_quantile
            = Ok (Ranked df' (n_unique_ranks df'))
          /\ List.map row_trial df' = List.map row_trial df
          /\ List.map latent_variable df' = List.map latent_variable df
          /\ List.map quantile_rank df' = ranks).
Proof.
  unfold cut_into_quantiles. split.
  - intros H. apply nan_guard_fires in H. rewrite H. reflexivity.
  - intros Hfin ranks Hq Hlen.
    assert (Hg : any PrimFloat.is_nan (List.map latent_variable df) = false).
    { apply not_true_is_false. intros H.
      apply nan_guard_fires in H as (r & Hr & Hn).
      rewrite (Hfin r Hr) in Hn. discriminate Hn. }
    rewrite Hg, Hq. cbn [bind].
    exists (assign_ranks df ranks). split; [reflexivity|].
    apply assign_ranks_columns. exact Hlen.
Qed.

(** [missing_values_stop_the_cut] on the frame with a NaN and on the
    frame without. *)
Lemma missing_values_stop_the_cut_examples :
  cut_into_quantiles (Examples.world Examples.frame_with_nan)
    Examples.frame_with_nan 5
  = Ok (PrintedAndReturned no_data_message)
  /\ exists df',
       cut_into_quantiles (Examples.world Examples.frame_clean)
         Examples.frame_clean 5
       = Ok (Ranked df' (n_unique_ranks df'))
       /\ List.map row_trial df' = List.map row_trial Examples.frame_clean
       /\ List.map latent_variable df'
          = List.map latent_variable Examples.frame_clean
       /\ List.map quantile_rank df' = [Some 0; Some 1; Some 1].
Proof.
  split.
  - apply (proj1 (missing_values_stop_the_cut
                    (Examples.world Examples.frame_with_nan)
                    Examples.frame_with_nan 5)).
    exists (Examples.row 2 PrimFloat.nan None).
    split; [right; left; reflexivity | reflexivity].
  - apply (proj2 (missing_values_stop_the_cut
                    (Examples.world Examples.frame_clean)
                    Examples.frame_clean 5)).
    + intros r [<-|[<-|[<-|[]]]]; reflexivity.
    + reflexivity.
    + reflexivity.
Defined.

Lemma hundred_identical_cut (env : Collaborators) :
  any PrimFloat.is_nan (List.map latent_variable Examples.hundred_identical)
    = false
  /\ cut_into_quantiles env Examples.hundred_identical 5
     = bind (qcut env (List.repeat 1%float 100) 5)
            (fun ranks =>
               Ok (Ranked (assign_ranks Examples.hundred_identical ranks)
                          (n_unique_ranks
                             (assign_ranks Examples.hundred_identical ranks)))).
Proof.
  assert (Hg : any PrimFloat.is_nan
                 (List.map latent_variable Examples.hundred_identical) = false)
    by (vm_compute; reflexivity).
  assert (Hcol : List.map latent_variable Examples.hundred_identical
                 = List.repeat 1%float 100)
    by (vm_compute; reflexivity).
  split; [exact Hg|].
  unfold cut_into_quantiles. rewrite Hg, Hcol. reflexivity.
Qed.

(** C6, on the code: one hundred identical values. No value is NaN, so
    the only refusal the function has does not fire: whatever
    [pandas.qcut] is, the series goes to it, and when it returns ranks
    the function goes on with them. *)
Theorem identical_values_are_not_refused (env : Collaborators) :
  any PrimFloat.is_nan (List.map latent_variable Examples.hundred_identical)
    = false
  /\ cut_into_quantiles env Examples.hundred_identical 5
     = bind (qcut env (List.repeat 1%float 100) 5)
            (fun ranks =>
               Ok (Ranked (assign_ranks Examples.hundred_identical ranks)
                          (n_unique_ranks
                             (assign_ranks Examples.hundred_identical ranks))))
  /\ forall msg,
       cut_into_quantiles env Examples.hundred_identical 5
         <> Ok (PrintedAndReturned msg).
Proof.
  destruct (hundred_identical_cut env) as [Hg Hcut].
  split; [exact Hg|]. split; [exact Hcut|].
  intros msg. rewrite Hcut.
  destruct (qcut env (List.repeat 1%float 100) 5); cbn [bind];
    discriminate.
Qed.

(** What [pandas.qcut] returns for a constant series when duplicate bin
    edges are dropped is a NaN rank for every entry. With those ranks
    the function counts one group and that group has no trial. *)
Lemma identical_values_one_empty_group (env : Collaborators)
    (unit_key : UnitKey) (offset : Z) :
  qcut env (List.repeat 1%float 100) 5 = Ok (List.repeat None 100) ->
  exists df,
    cut_into_quantiles env Examples.hundred_identical 5 = Ok (Ranked df 1)
    /\ group_trials env unit_key df 1 offset = [[]].
Proof.
  intros Hq.
  destruct (hundred_identical_cut env) as [_ Hcut].
  rewrite Hcut, Hq. cbn [bind].
  exists (assign_ranks Examples.hundred_identical (List.repeat None 100)).
  split.
  - f_equal.
  - unfold group_trials, range. cbn [List.seq List.map].
    replace (trial_num _ (Z.of_nat 0) offset) with (@nil Row)
      by (vm_compute; reflexivity).
    unfold this_trials. cbn [List.existsb].
    f_equal. induction (BehaviorTrial env) as [|b l IH]; [reflexivity|].
    cbn [List.filter]. rewrite andb_false_r. exact IH.
Qed.

Lemma in_trial_num (df : list Row) (rank offset : Z) (t : Z) :
  List.existsb (fun r => row_trial r =? t) (trial_num df rank offset) = true
  <-> exists r, In r df /\ quantile_rank r = Some rank
                /\ t = row_trial r + offset.
Proof.
  unfold trial_num. rewrite existsb_exists. split.
  - intros (x & Hx & Ht). apply in_map_iff in Hx as (r & <- & Hr).
    apply filter_In in Hr as [Hr Hq]. cbn [row_trial] in Ht.
    apply Z.eqb_eq in Ht. exists r. repeat split; [assumption| |lia].
    destruct (quantile_rank r) as [q|]; [|discriminate Hq].
    apply Z.eqb_eq in Hq. congruence.
  - intros (r & Hr & Hq & ->).
    eexists. split.
    + apply in_map_iff. exists r. split; [reflexivity|].
      apply filter_In. split; [assumption|].
      rewrite Hq. apply Z.eqb_refl.
    + cbn [row_trial]. apply Z.eqb_refl.
Qed.

(** C7. The rows of a quantile group do not depend on the offset: with
    offset [o] they are the rows of offset 0 with [o] added to their
    trial numbers. A trial of the unit's session is selected exactly
    when it exists in [BehaviorTrial] and its number is the number of a
    group row plus [o]; a shifted number with no such trial selects
    nothing, and no other trial stands in for it. *)
Theorem trial_offset_rule (env : Collaborators) (unit_key : UnitKey)
    (df : list Row) (rank offset : Z) :
  List.map row_trial (trial_num df rank offset)
    = List.map (fun t => t + offset) (List.map row_trial (trial_num df rank 0))
  /\ List.length (trial_num df rank offset)
     = List.length (trial_num df rank 0)
  /\ forall b : TrialKey,
       In b (this_trials env unit_key (trial_num df rank offset))
       <-> In b (BehaviorTrial env)
           /\ trial_session b = unit_session unit_key
           /\ exists r, In r (trial_num df rank 0)
                        /\ trial b = row_trial r + offset.
Proof.
  split; [|split].
  - unfold trial_num. rewrite !List.map_map. cbn [row_trial].
    apply List.map_ext. intros r. lia.
  - unfold trial_num. rewrite !List.length_map. reflexivity.
  - intros b. unfold this_trials. rewrite filter_In, andb_true_iff.
    rewrite SessionKey_eqb_eq, in_trial_num.
    split.
    + intros (Hb & Hs & r & Hr & Hq & Ht). repeat split; try assumption.
      exists {| row_trial := row_trial r + 0;
                latent_variable := latent_variable r;
                quantile_rank := quantile_rank r |}.
      split; [|cbn [row_trial]; lia].
      unfold trial_num. apply in_map_iff. exists r. split; [reflexivity|].
      apply filter_In. split; [assumption|]. rewrite Hq. apply Z.eqb_refl.
    + intros (Hb & Hs & r0 & Hr0 & Ht). repeat split; try assumption.
      unfold trial_num in Hr0. apply in_map_iff in Hr0 as (r & <- & Hr).
      apply filter_In in Hr as [Hr Hq]. cbn [row_trial] in Ht.
      exists r. repeat split; [assumption| |lia].
      destruct (quantile_rank r) as [q|]; [|discriminate Hq].
      apply Z.eqb_eq in Hq. congruence.
Qed.

(** Group 0 of the ranked frame holds trials 1 and 5 of a session of
    five trials. With offset 1 they are addressed as 2 and 6: trial 2 is
    selected and 6 selects nothing, neither trial 1 (wrapped) nor trial
    5 (clamped). With offset 0 both are selected. *)
Lemma offset_on_five_trials :
  this_trials (Examples.world []) Examples.unit541
    (trial_num Examples.frame_ranked 0 0)
  = [Examples.behavior_trial Examples.session47 1;
     Examples.behavior_trial Examples.session47 5]
  /\ this_trials (Examples.world []) Examples.unit541
       (trial_num Examples.frame_ranked 0 1)
     = [Examples.behavior_trial Examples.session47 2]
  /\ this_trials (Examples.world []) Examples.unit541
       (trial_num Examples.frame_ranked 0 (-1))
     = [Examples.behavior_trial Examples.session47 4].
Proof. vm_compute. auto. Qed.

End QuantileGroups.

(** ** The signal segmenter *)
Section Segmenter.
Import Py Scalar Experiment.
Context {A : Type}.

Lemma getitem_nat {X : Type} (a : list X) (i : nat) (x : X) :
  List.nth_error a i = Some x -> getitem a (Z.of_nat i) = Ok x.
Proof.
  intros H. unfold getitem, len.
  assert (Hlt : (i < List.length a)%nat)
    by (apply List.nth_error_Some; congruence).
  assert (E1 : (Z.of_nat i <? 0) = false) by (apply Z.ltb_ge; lia).
  assert (E2 : (Z.of_nat (List.length a) <=? Z.of_nat i) = false)
    by (apply Z.leb_gt; lia).
  cbv zeta. rewrite E1. cbv iota. rewrite E1, E2.
  cbn [orb]. rewrite Nat2Z.id, H. reflexivity.
Qed.

Lemma getitem_last {X : Type} (a : list X) (x : X) :
  List.nth_error a (List.length a - 1) = Some x -> getitem a (-1) = Ok x.
Proof.
  intros H. unfold getitem, len.
  assert (Hlt : (List.length a - 1 < List.length a)%nat)
    by (apply List.nth_error_Some; congruence).
  assert (E1 : (-1 + Z.of_nat (List.length a) <? 0) = false)
    by (apply Z.ltb_ge; lia).
  assert (E2 : (Z.of_nat (List.length a) <=? -1 + Z.of_nat (List.length a)) = false)
    by (apply Z.leb_gt; lia).
  cbv zeta. change (-1 <? 0) with true. cbv iota. rewrite E1, E2.
  cbn [orb].
  replace (Z.to_nat (-1 + Z.of_nat (List.length a)))
    with (List.length a - 1)%nat by lia.
  rewrite H. reflexivity.
Qed.

Lemma for_each_map {X Y : Type} (f : X -> result Y) (g : X -> Y) (xs : list X) :
  (forall x, In x xs -> f x = Ok (g x)) ->
  for_each f xs = Ok (List.map g xs).
Proof.
  induction xs as [|x xs IH]; intros H; [reflexivity|].
  cbn [for_each List.map].
  rewrite (H x (or_introl eq_refl)). cbn [bind].
  rewrite IH by (intros y Hy; apply H; right; exact Hy).
  reflexivity.
Qed.

Lemma segment_one_ok (data : list (list A)) (ts : list Z) (i : nat) :
  (i < List.length ts)%nat ->
  segment_one data ts (Z.of_nat i)
  = Ok (columns_flat data (List.nth i ts 0) (end_idx ts i)).
Proof.
  intros Hi. unfold segment_one, end_idx.
  rewrite (getitem_nat ts i (List.nth i ts 0))
    by (apply List.nth_error_nth'; exact Hi).
  rewrite (getitem_last ts (List.nth (List.length ts - 1) ts 0))
    by (apply List.nth_error_nth'; lia).
  cbn [bind].
  destruct (List.nth i ts 0 <? List.nth (List.length ts - 1) ts 0) eqn:E;
    [|reflexivity].
  assert (Hne : i <> (List.length ts - 1)%nat).
  { intros ->. apply Z.ltb_lt in E. lia. }
  replace (Z.of_nat i + 1) with (Z.of_nat (S i)) by lia.
  rewrite (getitem_nat ts (S i) (List.nth (S i) ts 0))
    by (apply List.nth_error_nth'; lia).
  reflexivity.
Qed.

(** The loop never raises, and makes one segment per start index. *)
Lemma segment_trials_ok (data : list (list A)) (ts : list Z) :
  segment_trials data ts
  = Ok (List.map
          (fun i => columns_flat data (List.nth i ts 0) (end_idx ts i))
          (List.seq 0 (List.length ts))).
Proof.
  unfold segment_trials, range.
  rewrite (for_each_map _
    (fun z => columns_flat data (List.nth (Z.to_nat z) ts 0)
                           (end_idx ts (Z.to_nat z)))).
  - rewrite List.map_map. f_equal. apply List.map_ext.
    intros i. rewrite Nat2Z.id. reflexivity.
  - intros z Hz. apply in_map_iff in Hz as (i & <- & Hi).
    apply in_seq in Hi. rewrite Nat2Z.id. apply segment_one_ok. lia.
Qed.

Lemma slice_between (buf : list A) (lo hi : Z) :
  0 <= lo <= len buf -> 0 <= hi <= len buf ->
  slice buf lo hi = between buf lo hi.
Proof.
  intros Hlo Hhi. unfold slice, slice_bound, between.
  replace (lo <? 0) with false by (symmetry; apply Z.ltb_ge; lia).
  replace (hi <? 0) with false by (symmetry; apply Z.ltb_ge; lia).
  rewrite !Z.min_l by lia. reflexivity.
Qed.

(** A stop of [-1] ends the slice one sample before the end. *)
Lemma slice_minus_one (buf : list A) (lo : Z) :
  0 <= lo <= len buf ->
  slice buf lo (-1) = between buf lo (len buf - 1).
Proof.
  intros Hlo. unfold slice, slice_bound, between.
  replace (lo <? 0) with false by (symmetry; apply Z.ltb_ge; lia).
  change (-1 <? 0) with true. cbv iota.
  rewrite Z.min_l by lia.
  destruct (Z.max_spec 0 (-1 + len buf)) as [[H1 ->]|[H1 ->]].
  - replace (-1 + len buf - lo) with (len buf - 1 - lo) by lia. reflexivity.
  - replace (Z.to_nat (0 - lo)) with (Z.to_nat (len buf - 1 - lo)) by lia.
    reflexivity.
Qed.

Lemma between_app (buf : list A) (a b c : Z) :
  0 <= a <= b -> b <= c ->
  between buf a b ++ between buf b c = between buf a c.
Proof.
  intros Hab Hbc. unfold between.
  replace (Z.to_nat (c - a)) with (Z.to_nat (b - a) + Z.to_nat (c - b))%nat by lia.
  rewrite <- take_take_drop. f_equal.
  rewrite drop_drop.
  replace (Z.to_nat a + Z.to_nat (b - a))%nat with (Z.to_nat b) by lia.
  reflexivity.
Qed.

Lemma between_length (buf : list A) (lo hi : Z) :
  0 <= lo <= hi -> hi <= len buf ->
  len (between buf lo hi) = hi - lo.
Proof.
  intros H1 H2. unfold between, len in *.
  rewrite List.length_firstn, List.length_skipn. lia.
Qed.

Lemma between_to_end (buf : list A) (lo : Z) :
  0 <= lo <= len buf ->
  between buf lo (len buf) = List.skipn (Z.to_nat lo) buf.
Proof.
  intros H. unfold between, len in *. apply List.firstn_all2.
  rewrite List.length_skipn. lia.
Qed.

Lemma segment_trials_increasing (buf : list A) (ts : list Z) :
  increasing ts ->
  (forall t, In t ts -> 0 <= t < len buf) ->
  segment_trials [buf] ts
  = Ok (List.map (fun i => between buf (List.nth i ts 0) (stop_of buf ts i))
                 (List.seq 0 (List.length ts))).
Proof.
  intros Hinc Hin. rewrite segment_trials_ok. f_equal.
  apply List.map_ext_in. intros i Hi. apply in_seq in Hi.
  assert (Hti : 0 <= List.nth i ts 0 < len buf)
    by (apply Hin, List.nth_In; lia).
  unfold columns_flat. cbn [List.map List.concat]. rewrite List.app_nil_r.
  unfold end_idx, stop_of.
  destruct (Nat.ltb_spec (S i) (List.length ts)) as [Hlt|Hge].
  - assert (Hlast : List.nth i ts 0 < List.nth (List.length ts - 1) ts 0)
      by (apply Hinc; lia).
    apply Z.ltb_lt in Hlast. rewrite Hlast.
    assert (0 <= List.nth (S i) ts 0 < len buf)
      by (apply Hin, List.nth_In; lia).
    apply slice_between; lia.
  - replace (List.length ts - 1)%nat with i by lia.
    rewrite Z.ltb_irrefl. apply slice_minus_one. lia.
Qed.

Lemma concat_segments_prefix (buf : list A) (ts : list Z) (k : nat) :
  increasing ts ->
  (forall t, In t ts -> 0 <= t < len buf) ->
  (k < List.length ts)%nat ->
  List.concat
    (List.map (fun i => between buf (List.nth i ts 0) (stop_of buf ts i))
              (List.seq 0 k))
  = between buf (List.nth 0 ts 0) (List.nth k ts 0).
Proof.
  intros Hinc Hin. induction k as [|k IH]; intros Hk.
  - cbn. unfold between. rewrite Z.sub_diag. reflexivity.
  - rewrite List.seq_S, List.map_app, List.concat_app, IH by lia.
    cbn [List.map List.concat Nat.add]. rewrite List.app_nil_r.
    unfold stop_of. replace (S k <? List.length ts)%nat with true
      by (symmetry; apply Nat.ltb_lt; lia).
    assert (H0 : 0 <= List.nth 0 ts 0 < len buf)
      by (apply Hin, List.nth_In; lia).
    assert (H0k : List.nth 0 ts 0 <= List.nth k ts 0).
    { destruct k; [lia|]. apply Z.lt_le_incl, Hinc. lia. }
    assert (Hk1 : List.nth k ts 0 < List.nth (S k) ts 0) by (apply Hinc; lia).
    apply between_app; lia.
Qed.

(** C1, on the code. For increasing start indices inside a one-channel
    buffer the loop makes one segment per trial; segment [i] before the
    last holds the samples of [[start_i, start_(i+1))]; the last segment
    holds the samples from its start to one sample before the end of the
    stream, because its stop index is [-1]; so the segments put together
    are the buffer from the first start without its last sample, and
    never the whole of it. *)
Theorem segmentation_loses_last_sample (buf : list A) (ts : list Z) :
  ts <> [] ->
  increasing ts ->
  (forall t, In t ts -> 0 <= t < len buf) ->
  exists segs,
    segment_trials [buf] ts = Ok segs
    /\ List.length segs = List.length ts
    /\ (forall i, (S i < List.length ts)%nat ->
          List.nth i segs []
          = between buf (List.nth i ts 0) (List.nth (S i) ts 0))
    /\ List.nth (List.length ts - 1) segs []
       = between buf (List.nth (List.length ts - 1) ts 0) (len buf - 1)
    /\ List.concat segs = between buf (List.nth 0 ts 0) (len buf - 1)
    /\ List.concat segs <> between buf (List.nth 0 ts 0) (len buf).
Proof.
  intros Hne Hinc Hin.
  set (f := fun i => between buf (List.nth i ts 0) (stop_of buf ts i)).
  assert (Hn : (0 < List.length ts)%nat).
  { destruct ts; [congruence|cbn; lia]. }
  assert (Hnth : forall i, (i < List.length ts)%nat ->
            List.nth i (List.map f (List.seq 0 (List.length ts))) [] = f i).
  { intros i Hi.
    rewrite (List.nth_indep _ [] (f 0%nat))
      by (rewrite List.length_map, List.length_seq; exact Hi).
    rewrite (List.map_nth f (List.seq 0 (List.length ts)) 0%nat i).
    rewrite List.seq_nth by exact Hi. reflexivity. }
  assert (Hcat : List.concat (List.map f (List.seq 0 (List.length ts)))
                 = between buf (List.nth 0 ts 0) (len buf - 1)).
  { replace (List.length ts) with (S (List.length ts - 1)) at 1 by lia.
    rewrite List.seq_S, List.map_app, List.concat_app.
    unfold f at 1.
    rewrite (concat_segments_prefix buf ts (List.length ts - 1) Hinc Hin)
      by lia.
    cbn [List.map List.concat Nat.add]. rewrite List.app_nil_r.
    unfold f, stop_of.
    replace (S (List.length ts - 1) <? List.length ts)%nat with false
      by (symmetry; apply Nat.ltb_ge; lia).
    assert (H0 : 0 <= List.nth 0 ts 0 < len buf)
      by (apply Hin, List.nth_In; lia).
    assert (Hl : 0 <= List.nth (List.length ts - 1) ts 0 < len buf)
      by (apply Hin, List.nth_In; lia).
    assert (H0l : List.nth 0 ts 0 <= List.nth (List.length ts - 1) ts 0).
    { destruct (Nat.eq_dec (List.length ts - 1)%nat 0%nat) as [->|Hd]; [lia|].
      apply Z.lt_le_incl, Hinc. lia. }
    apply between_app; lia. }
  exists (List.map f (List.seq 0 (List.length ts))).
  split; [apply segment_trials_increasing; assumption|].
  split; [rewrite List.length_map, List.length_seq; reflexivity|].
  split; [|split; [|split]].
  - intros i Hi. rewrite Hnth by lia. unfold f, stop_of.
    replace (S i <? List.length ts)%nat with true
      by (symmetry; apply Nat.ltb_lt; lia).
    reflexivity.
  - rewrite Hnth by lia. unfold f, stop_of.
    replace (S (List.length ts - 1) <? List.length ts)%nat with false
      by (symmetry; apply Nat.ltb_ge; lia).
    reflexivity.
  - exact Hcat.
  - rewrite Hcat. intros Heq.
    assert (H0 : 0 <= List.nth 0 ts 0 < len buf)
      by (apply Hin, List.nth_In; lia).
    apply (f_equal len) in Heq.
    rewrite !between_length in Heq by lia. lia.
Qed.

End Segmenter.

(** [segmentation_loses_last_sample] on six samples and the starts 0, 2
    and 4: the segments are [10, 20], [30, 40] and [50], and sample 60 is
    in none of them. *)
Lemma segmentation_loses_last_sample_example :
  exists segs,
    Experiment.segment_trials [[10; 20; 30; 40; 50; 60]] [0; 2; 4] = Py.Ok segs
    /\ List.length segs = 3%nat
    /\ (forall i, (S i < 3)%nat ->
          List.nth i segs []
          = Py.between [10; 20; 30; 40; 50; 60]
              (List.nth i [0; 2; 4] 0) (List.nth (S i) [0; 2; 4] 0))
    /\ List.nth 2 segs [] = [50]
    /\ List.concat segs = [10; 20; 30; 40; 50]
    /\ List.concat segs <> [10; 20; 30; 40; 50; 60].
Proof.
  apply (segmentation_loses_last_sample [10; 20; 30; 40; 50; 60] [0; 2; 4]).
  - discriminate.
  - intros i j Hij. cbn [List.length] in Hij.
    destruct i as [|[|[|i]]]; destruct j as [|[|[|j]]]; cbn; lia.
  - intros t [<-|[<-|[<-|[]]]]; unfold Py.len; cbn [List.length]; lia.
Defined.

(** ** [Breathing.make] as a whole *)
Section BreathingMake.
Import Py Scalar Experiment.

(** C5. With the sensor type that the metadata declares under
    "typeThis": if it is "imec", every raw buffer goes through the
    probe gain correction and is multiplied by 1e6; if it is anything
    else, every raw buffer goes through the analog-input gain correction
    and is multiplied by 1e3. The buffer itself has no say in the
    choice. *)
Theorem gain_branch_by_declared_type (env : Collaborators)
    (meta : gmap string string) (typeThis : string) :
  meta !! "typeThis"%string = Some typeThis ->
  (typeThis = "imec"%string ->
     forall raw,
       gain_correct env meta raw
       = bind (GainCorrectIM env raw chanList meta)
              (fun corrected =>
                 Ok (List.map (List.map (PrimFloat.mul 1e6%float)) corrected)))
  /\ (typeThis <> "imec"%string ->
      forall raw,
        gain_correct env meta raw
        = bind (GainCorrectNI env raw chanList meta)
               (fun corrected =>
                  Ok (List.map (List.map (PrimFloat.mul 1e3%float)) corrected))).
Proof.
  intros Hmeta. unfold gain_correct, meta_getitem. rewrite Hmeta. cbn [bind].
  split.
  - intros ->. rewrite String.eqb_refl. reflexivity.
  - intros Hne raw.
    destruct (String.eqb typeThis "imec") eqn:E; [|reflexivity].
    apply String.eqb_eq in E. contradiction.
Qed.

(** [gain_branch_by_declared_type] on one channel of three samples,
    under metadata that declares "imec" and under metadata that
    declares "nidq"; the stand-in gain correction doubles. *)
Lemma gain_branch_by_declared_type_examples :
  gain_correct (Examples.rig []) Examples.imec_meta [[10; 20; 30]]
  = bind (Examples.doubled [[10; 20; 30]] chanList Examples.imec_meta)
         (fun corrected =>
            Ok (List.map (List.map (PrimFloat.mul 1e6%float)) corrected))
  /\ gain_correct (Examples.rig []) Examples.nidq_meta [[10; 20; 30]]
     = bind (Examples.doubled [[10; 20; 30]] chanList Examples.nidq_meta)
            (fun corrected =>
               Ok (List.map (List.map (PrimFloat.mul 1e3%float)) corrected)).
Proof.
  split.
  - apply (proj1 (gain_branch_by_declared_type (Examples.rig [])
                    Examples.imec_meta "imec" eq_refl) eq_refl).
  - refine (proj2 (gain_branch_by_declared_type (Examples.rig [])
                     Examples.nidq_meta "nidq" eq_refl) _ _).
    discriminate.
Defined.

Lemma gain_correct_values :
  gain_correct (Examples.rig []) Examples.imec_meta [[10; 20; 30]]
  = Ok [[20000000%float; 40000000%float; 60000000%float]]
  /\ gain_correct (Examples.rig []) Examples.nidq_meta [[10; 20; 30]]
     = Ok [[20000%float; 40000%float; 60000%float]]
  /\ gain_correct (Examples.rig []) ∅ [[10; 20; 30]]
     = Raise (KeyError "typeThis").
Proof. vm_compute. auto. Qed.

Lemma Breathing_make_cases (env : Collaborators) (key : SessionKey)
    (table : list BreathingRow) :
  Breathing_make env key table =
  match Breathing_all_trials_data env key with
  | Ok _ => (Raise not_subscriptable, table)
  | Raise e => (Raise e, table)
  end.
Proof.
  unfold Breathing_make, mbind, lift, subscript_insert, raise.
  destruct (Breathing_all_trials_data env key); reflexivity.
Qed.

(** C9. [Breathing.make] always ends in an exception and leaves the
    table as it was; when the segmentation has run to its end, the
    exception is the [TypeError] of subscripting the bound method
    [insert]. *)
Theorem insert_is_subscripted (env : Collaborators) (key : SessionKey)
    (table : list BreathingRow) :
  (exists e, Breathing_make env key table = (Raise e, table))
  /\ (forall all_trials_data,
        Breathing_all_trials_data env key = Ok all_trials_data ->
        Breathing_make env key table = (Raise not_subscriptable, table)).
Proof.
  rewrite Breathing_make_cases. split.
  - destruct (Breathing_all_trials_data env key); eauto.
  - intros d ->. reflexivity.
Qed.

(** [insert_is_subscripted] on session 47 of the example rig, whose
    segmentation yields three segments. *)
Lemma insert_is_subscripted_example :
  Breathing_make (Examples.rig []) Examples.session47 []
  = (Raise not_subscriptable, []).
Proof.
  apply (proj2 (insert_is_subscripted (Examples.rig []) Examples.session47 [])
               [[20000%float; 40000%float]; [60000%float; 80000%float];
                [100000%float]]).
  vm_compute. reflexivity.
Defined.

Lemma gain_correct_ext (env1 env2 : Collaborators) (meta : gmap string string)
    (data : list (list Z)) :
  (forall d c m, GainCorrectIM env1 d c m = GainCorrectIM env2 d c m) ->
  (forall d c m, GainCorrectNI env1 d c m = GainCorrectNI env2 d c m) ->
  gain_correct env1 meta data = gain_correct env2 meta data.
Proof.
  intros HIM HNI. unfold gain_correct.
  destruct (meta_getitem meta "typeThis") as [t|e]; [|reflexivity].
  cbn [bind]. rewrite HIM, HNI. reflexivity.
Qed.

(** C10. The buffer that is segmented is read at the constant path
    [binFullPath], whatever the session key. Two runs, for any two keys
    and in any two states of the data store that hold the same file at
    that path, produce the same segments as soon as the two sessions
    have the same trial start times: nothing else of the session, and
    no other file, reaches the output. *)
Theorem raw_buffer_ignores_session (env1 env2 : Collaborators)
    (key1 key2 : SessionKey) :
  session_trial_start_times env1 key1 = session_trial_start_times env2 key2 ->
  readMeta env1 binFullPath = readMeta env2 binFullPath ->
  (forall m, makeMemMapRaw env1 binFullPath m = makeMemMapRaw env2 binFullPath m) ->
  (forall m, SampRate env1 m = SampRate env2 m) ->
  (forall d c m, GainCorrectIM env1 d c m = GainCorrectIM env2 d c m) ->
  (forall d c m, GainCorrectNI env1 d c m = GainCorrectNI env2 d c m) ->
  (forall x, astype_int env1 x = astype_int env2 x) ->
  Breathing_all_trials_data env1 key1 = Breathing_all_trials_data env2 key2.
Proof.
  intros Htimes Hmeta Hraw Hrate HIM HNI Hcast.
  unfold Breathing_all_trials_data. rewrite Htimes, Hmeta.
  destruct (session_trial_start_times env2 key2) as [times|e]; [|reflexivity].
  cbn [bind].
  destruct (readMeta env2 binFullPath) as [meta|e]; [|reflexivity].
  cbn [bind]. rewrite Hrate.
  destruct (SampRate env2 meta) as [sRate|e]; [|reflexivity].
  cbn [bind]. rewrite Hraw.
  destruct (makeMemMapRaw env2 binFullPath meta) as [rawData|e]; [|reflexivity].
  cbn [bind].
  destruct (for_each (getitem rawData) chanList) as [data|e]; [|reflexivity].
  cbn [bind]. rewrite (gain_correct_ext env1 env2 meta data HIM HNI).
  destruct (gain_correct env2 meta data) as [corrected|e]; [|reflexivity].
  cbn [bind]. f_equal. apply List.map_ext. intros t. apply Hcast.
Qed.

(** [raw_buffer_ignores_session] on sessions 47 and 48, whose folders
    differ, in two data stores that differ in every file but the one at
    [binFullPath]. *)
Lemma raw_buffer_ignores_session_example :
  Breathing_all_trials_data (Examples.rig []) Examples.session47
  = Breathing_all_trials_data (Examples.rig [[7; 7; 7]]) Examples.session48.
Proof.
  apply raw_buffer_ignores_session; try reflexivity.
Defined.

End BreathingMake.

(* ===================================================================== *)
(** * Part III. Further properties of the same code                       *)
(* ===================================================================== *)

(** ** More on [PhotostimBrainRegion.make] *)
Section LateralityMore.
Import Py Scalar Experiment.

Local Abbreviation ml r := (hundredths (ml_location r)).
Local Abbreviation mls rows :=
  (List.map (fun r => float_of_decimal (ml_location r)) rows).

Lemma areas_at_most_one (l : list string) :
  (1 <? Z.of_nat (size (list_to_set (C := gset string) l))) = false ->
  forall x y, In x l -> In y l -> x = y.
Proof.
  intros Hs x y Hx Hy. apply Z.ltb_ge in Hs.
  destruct (String.eqb_spec x y) as [|Hne]; [assumption|].
  pose proof (areas_several l x y Hx Hy Hne). lia.
Qed.

Lemma existsb_perm {X : Type} (p : X -> bool) (l l' : list X) :
  Permutation l l' -> List.existsb p l = List.existsb p l'.
Proof.
  intros HP. apply Bool.eq_iff_eq_true. rewrite !existsb_exists.
  split; intros (x & Hx & Hp); exists x; split; try assumption.
  - eapply Permutation_in; eassumption.
  - eapply Permutation_in; [symmetry|]; eassumption.
Qed.

Lemma forallb_perm {X : Type} (p : X -> bool) (l l' : list X) :
  Permutation l l' -> List.forallb p l = List.forallb p l'.
Proof.
  intros HP. apply Bool.eq_iff_eq_true. rewrite !forallb_forall.
  split; intros H x Hx; apply H.
  - eapply Permutation_in; [symmetry|]; eassumption.
  - eapply Permutation_in; eassumption.
Qed.

Lemma getitem_head {X : Type} (l : list X) :
  getitem l 0 = match l with [] => Raise IndexError | x :: _ => Ok x end.
Proof.
  destruct l as [|x l]; [reflexivity|].
  unfold getitem, len. cbn [List.length].
  change (0 <? 0) with false. cbv iota zeta. change (0 <? 0) with false.
  replace (Z.of_nat (S (List.length l)) <=? 0) with false
    by (symmetry; apply Z.leb_gt; lia).
  reflexivity.
Qed.

(** X1. The rows come from the database in no particular order, and the
    order does not matter: two lists of the same rows resolve alike, to
    the same area and laterality or to the same exception. *)
Theorem resolve_order_irrelevant (rows rows' : list PhotostimLocation) :
  Permutation rows rows' -> resolve rows = resolve rows'.
Proof.
  intros HP. unfold resolve.
  assert (Hareas : Permutation (List.map brain_area rows) (List.map brain_area rows'))
    by (apply Permutation_map; exact HP).
  assert (Hml : Permutation (mls rows) (mls rows'))
    by (apply Permutation_map; exact HP).
  rewrite (list_to_set_perm_L _ _ Hareas).
  destruct (1 <? Z.of_nat (size (list_to_set (C := gset string)
              (List.map brain_area rows')))) eqn:Hs; [reflexivity|].
  unfold any, all.
  rewrite (existsb_perm gt0 _ _ Hml), (existsb_perm lt0 _ _ Hml),
          (forallb_perm gt0 _ _ Hml), (forallb_perm lt0 _ _ Hml),
          (forallb_perm eq0 _ _ Hml).
  match goal with |- bind ?L _ = bind ?L _ => destruct L as [l|e] end;
    [|reflexivity].
  cbn [bind]. rewrite !getitem_head.
  destruct rows as [|r rows], rows' as [|r' rows'].
  - reflexivity.
  - apply Permutation_nil in HP. discriminate HP.
  - symmetry in HP. apply Permutation_nil in HP. discriminate HP.
  - cbn [List.map]. cbn [bind].
    assert (brain_area r = brain_area r') as ->; [|reflexivity].
    apply (areas_at_most_one _ Hs).
    + apply in_map. eapply Permutation_in; [exact HP|]. left. reflexivity.
    + apply in_map. left. reflexivity.
Qed.

(** [resolve_order_irrelevant] on the sites at 5 and -3 micrometres and
    on the same two sites the other way round. *)
Lemma resolve_order_irrelevant_example :
  resolve Examples.ml_5_m3 = resolve (List.rev Examples.ml_5_m3).
Proof.
  apply resolve_order_irrelevant. apply Permutation_rev.
Defined.

Lemma resolve_ok_inv (rows : list PhotostimLocation) (a : string)
    (lat : laterality) :
  resolve rows = Ok (a, lat) ->
  rows <> []
  /\ (forall r, In r rows -> brain_area r = a)
  /\ (if any gt0 (mls rows) && any lt0 (mls rows) then lat = Both
      else if all gt0 (mls rows) then lat = Right
      else all lt0 (mls rows) = true /\ lat = Left).
Proof.
  unfold resolve.
  destruct (1 <? Z.of_nat (size (list_to_set (C := gset string)
              (List.map brain_area rows)))) eqn:Hs; [discriminate|].
  rewrite getitem_head.
  destruct rows as [|r0 rows].
  { destruct (any gt0 (mls []) && any lt0 (mls [])); cbn; discriminate. }
  cbn [List.map]. intros H.
  assert (Ha : brain_area r0 = a /\
               (if any gt0 (mls (r0 :: rows)) && any lt0 (mls (r0 :: rows))
                then lat = Both
                else if all gt0 (mls (r0 :: rows)) then lat = Right
                else all lt0 (mls (r0 :: rows)) = true /\ lat = Left)).
  { cbn [List.map] in *.
    destruct (any gt0 _ && any lt0 _); [inversion H; auto|].
    destruct (all gt0 _); [inversion H; auto|].
    destruct (all lt0 _); [inversion H; auto|].
    destruct (all eq0 _); discriminate H. }
  destruct Ha as [Ha Hlat].
  split; [discriminate|]. split; [|exact Hlat].
  intros r Hr. rewrite <- Ha.
  apply (areas_at_most_one _ Hs).
  - apply (in_map brain_area) in Hr. exact Hr.
  - left. reflexivity.
Qed.

(** X2. What a stored label means. If the resolver returns area [a] and
    a laterality, then there is at least one row, every row is in [a],
    and: "both" means some medial coordinate is above 0 and some below;
    "right" means all are above 0; "left" means all are below 0. *)
Theorem resolved_label_meaning (rows : list PhotostimLocation) (a : string)
    (lat : laterality) :
  resolve rows = Ok (a, lat) ->
  rows <> []
  /\ (forall r, In r rows -> brain_area r = a)
  /\ match lat with
     | Both => (exists r, In r rows /\ 0 < ml r) /\ (exists r, In r rows /\ ml r < 0)
     | Right => forall r, In r rows -> 0 < ml r
     | Left => forall r, In r rows -> ml r < 0
     end.
Proof.
  intros H. destruct (resolve_ok_inv rows a lat H) as (Hne & Harea & Hlat).
  split; [exact Hne|]. split; [exact Harea|].
  destruct (any gt0 (mls rows) && any lt0 (mls rows)) eqn:Eb.
  - subst lat. apply andb_true_iff in Eb as [Hp Hn].
    split; [apply any_gt0; exact Hp | apply any_lt0; exact Hn].
  - destruct (all gt0 (mls rows)) eqn:Eg.
    + subst lat. apply all_gt0. exact Eg.
    + destruct Hlat as [El ->]. apply all_lt0. exact El.
Qed.

(** [resolved_label_meaning] on the sites at 5 and 7 micrometres. *)
Lemma resolved_label_meaning_example :
  Examples.ml_5_7 <> []
  /\ (forall r, In r Examples.ml_5_7 -> brain_area r = "ALM"%string)
  /\ (forall r, In r Examples.ml_5_7 -> 0 < ml r).
Proof.
  apply (resolved_label_meaning Examples.ml_5_7 "ALM" Right).
  vm_compute. reflexivity.
Defined.

(** X3. The sanity check of the last branch fails, with an
    [AssertionError], exactly on rows of at most one area that put a zero
    medial coordinate next to a nonzero one without having both signs. *)
Theorem zero_beside_one_side (rows : list PhotostimLocation) :
  resolve rows = Raise AssertionError
  <-> (forall r1 r2, In r1 rows -> In r2 rows -> brain_area r1 = brain_area r2)
      /\ (exists r, In r rows /\ ml r = 0)
      /\ (exists r, In r rows /\ ml r <> 0)
      /\ ~ ((exists r, In r rows /\ 0 < ml r) /\ (exists r, In r rows /\ ml r < 0)).
Proof.
  split.
  - unfold resolve.
    destruct (1 <? Z.of_nat (size (list_to_set (C := gset string)
                (List.map brain_area rows)))) eqn:Hs; [discriminate|].
    destruct (any gt0 (mls rows) && any lt0 (mls rows)) eqn:Eb.
    { cbn [bind]. rewrite getitem_head. destruct rows; cbn in *; discriminate. }
    destruct (all gt0 (mls rows)) eqn:Eg.
    { cbn [bind]. rewrite getitem_head. destruct rows; cbn.
      - discriminate.
      - discriminate. }
    destruct (all lt0 (mls rows)) eqn:El.
    { cbn [bind]. rewrite getitem_head. destruct rows; cbn; discriminate. }
    destruct (all eq0 (mls rows)) eqn:Ez; [discriminate|].
    intros _.
    assert (Hnz : exists r, In r rows /\ ml r <> 0).
    { destruct (List.forallb (fun r => ml r =? 0) rows) eqn:E.
      - exfalso. rewrite forallb_forall in E.
        assert (all eq0 (mls rows) = true); [|congruence].
        apply all_eq0. intros r Hr. apply Z.eqb_eq, E, Hr.
      - apply not_true_iff_false in E. rewrite forallb_forall in E.
        destruct (List.existsb (fun r => negb (ml r =? 0)) rows) eqn:E2.
        + apply existsb_exists in E2 as (r & Hr & Hn). exists r. split; [exact Hr|].
          apply negb_true_iff, Z.eqb_neq in Hn. exact Hn.
        + exfalso. apply E. intros r Hr.
          assert (Hn : negb (ml r =? 0) = false).
          { destruct (negb (ml r =? 0)) eqn:En; [|reflexivity].
            assert (List.existsb (fun r => negb (ml r =? 0)) rows = true)
              by (apply existsb_exists; eauto).
            congruence. }
          apply negb_false_iff in Hn. exact Hn. }
    assert (Hboth : ~ ((exists r, In r rows /\ 0 < ml r)
                       /\ (exists r, In r rows /\ ml r < 0))).
    { intros [Hp Hn]. apply any_gt0 in Hp. apply any_lt0 in Hn.
      rewrite Hp, Hn in Eb. discriminate Eb. }
    split; [|split; [|split]]; try assumption.
    + intros r1 r2 H1 H2. apply (areas_at_most_one _ Hs); apply in_map; assumption.
    + destruct Hnz as (r & Hr & Hnzr).
      destruct (Z.lt_trichotomy (ml r) 0) as [Hneg|[Hz|Hpos]]; [|contradiction|].
      * (* one row is negative: not all are, so some row is not negative *)
        destruct (List.existsb (fun r => negb (ml r <? 0)) rows) eqn:E2.
        -- apply existsb_exists in E2 as (r' & Hr' & Hn').
           apply negb_true_iff, Z.ltb_ge in Hn'.
           exists r'. split; [exact Hr'|].
           destruct (Z.eq_dec (ml r') 0) as [|Hne]; [assumption|].
           exfalso. apply Hboth. split; [exists r'; split; [assumption|lia]|eauto].
        -- exfalso. assert (all lt0 (mls rows) = true); [|congruence].
           apply all_lt0. intros r' Hr'.
           destruct (ml r' <? 0) eqn:En; [apply Z.ltb_lt; exact En|].
           assert (List.existsb (fun r => negb (ml r <? 0)) rows = true).
           { apply existsb_exists. exists r'. rewrite En. auto. }
           congruence.
      * destruct (List.existsb (fun r => negb (0 <? ml r)) rows) eqn:E2.
        -- apply existsb_exists in E2 as (r' & Hr' & Hn').
           apply negb_true_iff, Z.ltb_ge in Hn'.
           exists r'. split; [exact Hr'|].
           destruct (Z.eq_dec (ml r') 0) as [|Hne]; [assumption|].
           exfalso. apply Hboth. split; [eauto|exists r'; split; [assumption|lia]].
        -- exfalso. assert (all gt0 (mls rows) = true); [|congruence].
           apply all_gt0. intros r' Hr'.
           destruct (0 <? ml r') eqn:En; [apply Z.ltb_lt; exact En|].
           assert (List.existsb (fun r => negb (0 <? ml r)) rows = true).
           { apply existsb_exists. exists r'. rewrite En. auto. }
           congruence.
  - intros (Harea & (rz & Hrz & Hz) & (rn & Hrn & Hn) & Hboth).
    unfold resolve.
    assert (Hs : (1 <? Z.of_nat (size (list_to_set (C := gset string)
                    (List.map brain_area rows)))) = false).
    { apply Z.ltb_ge.
      assert (size (list_to_set (C := gset string) (List.map brain_area rows)) <= 1)%nat.
      { apply (areas_single _ (brain_area rz)). intros x Hx.
        apply in_map_iff in Hx as (r & <- & Hr). apply Harea; assumption. }
      lia. }
    rewrite Hs.
    assert (Eb : any gt0 (mls rows) && any lt0 (mls rows) = false).
    { apply not_true_is_false. intros H. apply andb_true_iff in H as [Hp Hq].
      apply Hboth. split; [apply any_gt0; exact Hp | apply any_lt0; exact Hq]. }
    assert (Eg : all gt0 (mls rows) = false).
    { apply not_true_is_false. intros H.
      pose proof (proj1 (all_gt0 rows) H rz Hrz). lia. }
    assert (El : all lt0 (mls rows) = false).
    { apply not_true_is_false. intros H.
      pose proof (proj1 (all_lt0 rows) H rz Hrz). lia. }
    assert (Ez : all eq0 (mls rows) = false).
    { apply not_true_is_false. intros H.
      pose proof (proj1 (all_eq0 rows) H rn Hrn). contradiction. }
    rewrite Eb, Eg, El, Ez. reflexivity.
Qed.

(** X4. A protocol without any location row: the laterality falls to
    "right" because nothing contradicts it, and taking the first brain
    area then raises [IndexError]; nothing is inserted. *)
Theorem make_without_locations (locations : list PhotostimLocation)
    (k : PhotostimKey) (table : list PhotostimBrainRegion) :
  restrict_locations k locations = [] ->
  PhotostimBrainRegion_make locations k table = (Raise IndexError, table).
Proof.
  intros H. rewrite make_of_resolve, H. reflexivity.
Qed.

(** [make_without_locations] on a protocol number that no site has. *)
Lemma make_without_locations_example :
  PhotostimBrainRegion_make Examples.ml_5_7
    {| photostim_session := Examples.session47; photo_stim := 2 |} []
  = (Raise IndexError, []).
Proof.
  apply make_without_locations. reflexivity.
Defined.

Lemma PhotostimKey_eqb_eq (k1 k2 : PhotostimKey) :
  PhotostimKey_eqb k1 k2 = true <-> k1 = k2.
Proof.
  unfold PhotostimKey_eqb. rewrite andb_true_iff, SessionKey_eqb_eq, Z.eqb_eq.
  destruct k1, k2; cbn. split.
  - intros [-> ->]. reflexivity.
  - intros H. inversion H. auto.
Qed.

(** X5. [make] touches the table in one way only: either it raises and
    the table is as before, or it returns and the table has gained, at
    its end, one row under the key it was called with, a key that no
    earlier row had. So a table with one row per protocol stays so. *)
Theorem make_adds_one_row_for_its_key (locations : list PhotostimLocation)
    (k : PhotostimKey) (table : list PhotostimBrainRegion) :
  (exists e, PhotostimBrainRegion_make locations k table = (Raise e, table))
  \/ (exists a lat,
        PhotostimBrainRegion_make locations k table
        = (Ok tt, table ++ [{| key := k; stim_brain_area := a;
                               stim_laterality := lat |}])
        /\ resolve (restrict_locations k locations) = Ok (a, lat)
        /\ (forall r, In r table -> key r <> k)
        /\ (NoDup (List.map key table) ->
            NoDup (List.map key (table ++ [{| key := k; stim_brain_area := a;
                                              stim_laterality := lat |}])))).
Proof.
  rewrite make_of_resolve.
  destruct (resolve (restrict_locations k locations)) as [[a lat]|e] eqn:Hr;
    [|left; eauto].
  unfold insert1. cbn [fst snd key].
  destruct (List.existsb _ table) eqn:Ex; [left; eauto|].
  right. exists a, lat. split; [reflexivity|]. split; [reflexivity|].
  assert (Hfresh : forall r, In r table -> key r <> k).
  { intros r Hin Heq.
    assert (List.existsb (fun r => PhotostimKey_eqb (key r) k) table = true).
    { apply existsb_exists. exists r. split; [exact Hin|].
      apply PhotostimKey_eqb_eq. exact Heq. }
    congruence. }
  split; [exact Hfresh|].
  intros Hnd. rewrite List.map_app. cbn [List.map key].
  apply NoDup_app. split; [exact Hnd|]. split.
  - intros x Hx Hx'. apply list_elem_of_In in Hx, Hx'.
    apply in_map_iff in Hx as (r & <- & Hin).
    destruct Hx' as [Heq|[]]. apply (Hfresh r Hin). congruence.
  - apply NoDup_singleton.
Qed.

End LateralityMore.

(** ** More on [Breathing.make] *)
Section BreathingMore.
Import Py Scalar Experiment.

(** X6. The segmentation loop cannot fail: whatever the start indices
    are (unordered, repeated, negative, beyond the buffer) and whatever
    the buffer, no index is read out of range and the loop returns one
    segment per start index. *)
Theorem segment_trials_never_raises {A : Type} (data : list (list A))
    (ts : list Z) :
  exists segs,
    segment_trials data ts = Ok segs
    /\ List.length segs = List.length ts.
Proof.
  eexists. split; [apply segment_trials_ok|].
  rewrite List.length_map, List.length_seq. reflexivity.
Qed.

Lemma slice_map {A B : Type} (f : A -> B) (a : list A) (start stop : Z) :
  slice (List.map f a) start stop = List.map f (slice a start stop).
Proof.
  unfold slice, len. rewrite List.length_map.
  rewrite List.skipn_map, List.firstn_map. reflexivity.
Qed.

Lemma columns_flat_map {A B : Type} (f : A -> B) (data : list (list A))
    (start stop : Z) :
  columns_flat (List.map (List.map f) data) start stop
  = List.map f (columns_flat data start stop).
Proof.
  unfold columns_flat. rewrite List.concat_map, !List.map_map.
  f_equal. apply List.map_ext. intros row. apply slice_map.
Qed.

(** X7. Segmenting and converting sample by sample commute: the
    segments of a buffer whose samples all went through [f] are the
    segments of the original buffer with [f] applied to every sample. In
    particular a gain factor may be applied before or after the cut. *)
Theorem segmentation_commutes_with_conversion {A B : Type} (f : A -> B)
    (data : list (list A)) (ts : list Z) :
  segment_trials (List.map (List.map f) data) ts
  = bind (segment_trials data ts)
         (fun segs => Ok (List.map (List.map f) segs)).
Proof.
  rewrite !segment_trials_ok. cbn [bind]. f_equal.
  rewrite List.map_map. apply List.map_ext. intros i.
  apply columns_flat_map.
Qed.


(** X9. When the lines before the insert run to their end, there is one
    segment per trial start time of the session's bitcode. *)
Theorem one_segment_per_trial (env : Collaborators) (key : SessionKey)
    (all_trials_data : list (list float)) :
  Breathing_all_trials_data env key = Ok all_trials_data ->
  exists trial_start_times,
    session_trial_start_times env key = Ok trial_start_times
    /\ List.length all_trials_data = List.length trial_start_times.
Proof.
  unfold Breathing_all_trials_data.
  destruct (session_trial_start_times env key) as [times|e]; [|discriminate].
  cbn [bind].
  destruct (readMeta env binFullPath) as [meta|e]; [|discriminate]. cbn [bind].
  destruct (SampRate env meta) as [sRate|e]; [|discriminate]. cbn [bind].
  destruct (makeMemMapRaw env binFullPath meta) as [rawData|e]; [|discriminate].
  cbn [bind].
  destruct (for_each (getitem rawData) chanList) as [data|e]; [|discriminate].
  cbn [bind].
  destruct (gain_correct env meta data) as [corrected|e]; [|discriminate].
  cbn [bind]. rewrite segment_trials_ok. intros H. inversion H.
  exists times. split; [reflexivity|].
  rewrite !List.length_map, List.length_seq. reflexivity.
Qed.

(** [one_segment_per_trial] on session 47 of the example rig. *)
Lemma one_segment_per_trial_example :
  exists trial_start_times,
    session_trial_start_times (Examples.rig []) Examples.session47
    = Ok trial_start_times
    /\ List.length [[20000%float; 40000%float]; [60000%float; 80000%float];
                    [100000%float]]
       = List.length trial_start_times.
Proof.
  apply (one_segment_per_trial (Examples.rig []) Examples.session47).
  vm_compute. reflexivity.
Defined.

(** X10. Channel 2 is the breathing channel. If the buffer at
    [binFullPath] has fewer than three channels, [make] raises
    [IndexError] (once the session folder, the metadata, the sample rate
    and the buffer have been obtained) and leaves the table as it was. *)
Theorem breathing_channel_missing (env : Collaborators) (key : SessionKey)
    (table : list BreathingRow) (times : list float)
    (meta : gmap string string) (sRate : float) (rawData : list (list Z)) :
  session_trial_start_times env key = Ok times ->
  readMeta env binFullPath = Ok meta ->
  SampRate env meta = Ok sRate ->
  makeMemMapRaw env binFullPath meta = Ok rawData ->
  (List.length rawData <= 2)%nat ->
  Breathing_make env key table = (Raise IndexError, table).
Proof.
  intros Ht Hm Hs Hr Hlen.
  rewrite Breathing_make_cases. unfold Breathing_all_trials_data.
  rewrite Ht, Hm. cbn [bind]. rewrite Hs. cbn [bind]. rewrite Hr. cbn [bind].
  unfold chanList. cbn [for_each].
  assert (Hg : getitem rawData 2 = Raise IndexError).
  { unfold getitem, len. change (2 <? 0) with false. cbv iota zeta.
    change (2 <? 0) with false.
    replace (Z.of_nat (List.length rawData) <=? 2) with true
      by (symmetry; apply Z.leb_le; lia).
    reflexivity. }
  rewrite Hg. reflexivity.
Qed.

(** [breathing_channel_missing] on a recording of two channels. *)
Lemma breathing_channel_missing_example :
  Breathing_make (MoreExamples.rig_with Examples.nidq_meta MoreExamples.two_channels)
    Examples.session47 []
  = (Raise IndexError, []).
Proof.
  apply (breathing_channel_missing _ _ _ [0%float; 2%float; 4%float]
           Examples.nidq_meta 1%float MoreExamples.two_channels);
    first [reflexivity | cbn; lia].
Defined.

(** X11. The sensor type must be declared. If the metadata has no
    "typeThis" entry, [make] raises [KeyError] for that key, whatever the
    samples are, provided the buffer has its channel 2; neither gain
    correction is consulted and the table is left as it was. *)
Theorem sensor_type_undeclared (env : Collaborators) (key : SessionKey)
    (table : list BreathingRow) (times : list float)
    (meta : gmap string string) (sRate : float) (rawData : list (list Z)) :
  session_trial_start_times env key = Ok times ->
  readMeta env binFullPath = Ok meta ->
  SampRate env meta = Ok sRate ->
  makeMemMapRaw env binFullPath meta = Ok rawData ->
  (3 <= List.length rawData)%nat ->
  meta !! "typeThis"%string = None ->
  Breathing_make env key table = (Raise (KeyError "typeThis"), table).
Proof.
  intros Ht Hm Hs Hr Hlen Hkey.
  rewrite Breathing_make_cases. unfold Breathing_all_trials_data.
  rewrite Ht, Hm. cbn [bind]. rewrite Hs. cbn [bind]. rewrite Hr. cbn [bind].
  unfold chanList. cbn [for_each].
  destruct rawData as [|c0 [|c1 [|c2 rest]]]; cbn [List.length] in Hlen; try lia.
  assert (Hg : getitem (c0 :: c1 :: c2 :: rest) 2 = Ok c2)
    by exact (getitem_nat (c0 :: c1 :: c2 :: rest) 2 c2 eq_refl).
  rewrite Hg. cbn [bind].
  unfold gain_correct, meta_getitem. rewrite Hkey. reflexivity.
Qed.

(** [sensor_type_undeclared] on the example recording with an empty
    metadata file. *)
Lemma sensor_type_undeclared_example :
  Breathing_make (MoreExamples.rig_with ∅ Examples.recording)
    Examples.session47 []
  = (Raise (KeyError "typeThis"), []).
Proof.
  apply (sensor_type_undeclared _ _ _ [0%float; 2%float; 4%float]
           ∅ 1%float Examples.recording);
    first [reflexivity | cbn; lia].
Defined.

End BreathingMore.

(** ** More on the trial sets of [unit_psth.py] *)
Section TrialSetsMore.
Import Py UnitPsth UnitPsthPlots.

Lemma map_injective_on {X Y : Type} (f : X -> Y) (l : list X) :
  NoDup (List.map f l) ->
  forall x y, In x l -> In y l -> f x = f y -> x = y.
Proof.
  induction l as [|z l IH]; intros Hnd x y Hx Hy Hf; [destruct Hx|].
  cbn [List.map] in Hnd. apply NoDup_cons in Hnd as [Hz Hnd].
  rewrite list_elem_of_In in Hz.
  destruct Hx as [<-|Hx], Hy as [<-|Hy].
  - reflexivity.
  - exfalso. apply Hz. rewrite Hf. apply in_map. exact Hy.
  - exfalso. apply Hz. rewrite <- Hf. apply in_map. exact Hx.
  - apply IH; assumption.
Qed.

(** X12. When the frame has one row per trial, the quantile groups do
    not share trials: a trial selected for one rank is selected for no
    other rank, whatever the offset. *)
Theorem groups_do_not_share_trials (env : Collaborators) (unit_key : UnitKey)
    (df : list Row) (rank1 rank2 offset : Z) (b : TrialKey) :
  NoDup (List.map row_trial df) ->
  rank1 <> rank2 ->
  In b (this_trials env unit_key (trial_num df rank1 offset)) ->
  ~ In b (this_trials env unit_key (trial_num df rank2 offset)).
Proof.
  intros Hnd Hne H1 H2.
  unfold this_trials in H1, H2.
  apply filter_In in H1 as [_ H1]. apply filter_In in H2 as [_ H2].
  apply andb_true_iff in H1 as [_ H1]. apply andb_true_iff in H2 as [_ H2].
  apply in_trial_num in H1 as (r1 & Hr1 & Hq1 & Ht1).
  apply in_trial_num in H2 as (r2 & Hr2 & Hq2 & Ht2).
  assert (r1 = r2) by (apply (map_injective_on row_trial df Hnd); [assumption..|lia]).
  subst r2. congruence.
Qed.

(** [groups_do_not_share_trials] on the ranked frame: trial 2 of session
    47 is in group 1 and therefore not in group 0. *)
Lemma groups_do_not_share_trials_example :
  ~ In (Examples.behavior_trial Examples.session47 2)
       (this_trials (Examples.world []) Examples.unit541
          (trial_num Examples.frame_ranked 0 0)).
Proof.
  apply (groups_do_not_share_trials (Examples.world []) Examples.unit541
           Examples.frame_ranked 1 0 0).
  - cbn. repeat constructor; rewrite list_elem_of_In; cbn; intuition lia.
  - discriminate.
  - cbn. left. reflexivity.
Defined.

Lemma append_assoc (s t u : string) :
  String.append (String.append s t) u = String.append s (String.append t u).
Proof.
  induction s as [|c s IH]; [reflexivity|].
  change (String c (String.append (String.append s t) u)
          = String c (String.append s (String.append t u))).
  rewrite IH. reflexivity.
Qed.

Lemma length_append (s t : string) :
  String.length (String.append s t) = (String.length s + String.length t)%nat.
Proof.
  induction s as [|c s IH]; [reflexivity|].
  change (S (String.length (String.append s t))
          = S (String.length s + String.length t)).
  rewrite IH. reflexivity.
Qed.

(** X13. The rewriting of alignment names is not idempotent. A name in
    which "trial_start" occurs still contains it after the suffix is
    appended, so rewriting the rewritten name appends "_bitcode" a second
    time; a name without "trial_start" is never touched. *)
Theorem bitcode_suffix_accumulates (a : string) :
  (occurs_in "trial_start" a ->
     bitcode_name a = String.append a "_bitcode"
     /\ bitcode_name (bitcode_name a)
        = String.append (String.append a "_bitcode") "_bitcode"
     /\ bitcode_name (bitcode_name a) <> bitcode_name a)
  /\ (~ occurs_in "trial_start" a -> bitcode_name (bitcode_name a) = a).
Proof.
  split.
  - intros Hocc.
    assert (H1 : bitcode_name a = String.append a "_bitcode").
    { unfold bitcode_name. apply contains_occurs_in in Hocc.
      rewrite Hocc. reflexivity. }
    assert (Hocc' : occurs_in "trial_start" (String.append a "_bitcode")).
    { destruct Hocc as (pre & post & ->).
      exists pre, (String.append post "_bitcode").
      rewrite !append_assoc. reflexivity. }
    assert (H2 : bitcode_name (String.append a "_bitcode")
                 = String.append (String.append a "_bitcode") "_bitcode").
    { unfold bitcode_name. apply contains_occurs_in in Hocc'.
      rewrite Hocc'. reflexivity. }
    rewrite H1, H2. split; [reflexivity|]. split; [reflexivity|].
    intros Heq. apply (f_equal String.length) in Heq.
    rewrite !length_append in Heq. cbn in Heq. lia.
  - intros Hno. unfold bitcode_name.
    destruct (contains "trial_start" a) eqn:E.
    + apply contains_occurs_in in E. contradiction.
    + rewrite E. reflexivity.
Qed.

(** [bitcode_suffix_accumulates] on "next_trial_start" and on "go_cue". *)
Lemma bitcode_suffix_accumulates_example :
  bitcode_name (bitcode_name "next_trial_start")
  = "next_trial_start_bitcode_bitcode"%string
  /\ bitcode_name (bitcode_name "go_cue") = "go_cue"%string.
Proof.
  split.
  - refine (proj1 (proj2 (proj1 (bitcode_suffix_accumulates "next_trial_start") _))).
    exists "next_"%string, EmptyString. reflexivity.
  - apply (proj2 (bitcode_suffix_accumulates "go_cue")).
    intros H. apply contains_occurs_in in H. discriminate H.
Defined.







End TrialSetsMore.

(** ** The rows of the raster plots *)
Section RasterRows.
Import Py UnitPsthPlots.

Lemma where_eq_length (raster current : list Z) (tr i : Z) :
  List.length current = List.length raster ->
  List.length (where_eq raster tr i current) = List.length raster.
Proof.
  intros H. unfold where_eq.
  rewrite List.length_map, List.length_combine. lia.
Qed.

Lemma where_eq_nth (raster current : list Z) (tr i : Z) (p : nat) :
  List.length current = List.length raster ->
  (p < List.length raster)%nat ->
  List.nth p (where_eq raster tr i current) 0
  = if List.nth p raster 0 =? tr then i else List.nth p current 0.
Proof.
  intros Hlen Hp. unfold where_eq.
  set (f := fun q : Z * Z => if fst q =? tr then i else snd q).
  rewrite (List.nth_indep _ 0 (f (0, 0)))
    by (rewrite List.length_map, List.length_combine; lia).
  rewrite List.map_nth, List.combine_nth by (symmetry; exact Hlen).
  reflexivity.
Qed.

Lemma relabel_from_length (raster order : list Z) :
  forall i current,
    List.length current = List.length raster ->
    List.length (relabel_from raster order i current) = List.length raster.
Proof.
  induction order as [|tr rest IH]; intros i current H; cbn [relabel_from].
  - exact H.
  - apply IH. apply where_eq_length. exact H.
Qed.

Lemma index_of_none (x : Z) (order : list Z) :
  ~ In x order -> index_of x order = None.
Proof.
  induction order as [|y rest IH]; intros H; cbn [index_of]; [reflexivity|].
  destruct (Z.eqb_spec x y) as [->|Hne].
  - exfalso. apply H. left. reflexivity.
  - rewrite IH; [reflexivity|]. intros Hin. apply H. right. exact Hin.
Qed.

Lemma index_of_some (x : Z) (order : list Z) :
  In x order ->
  exists j, index_of x order = Some j /\ 0 <= j < Z.of_nat (List.length order).
Proof.
  induction order as [|y rest IH]; intros H; [destruct H|].
  cbn [index_of List.length].
  destruct (Z.eqb_spec x y) as [->|Hne].
  - exists 0. split; [reflexivity|lia].
  - destruct H as [->|H]; [contradiction|].
    destruct (IH H) as (j & -> & Hj). exists (j + 1). split; [reflexivity|lia].
Qed.

Lemma index_of_injective (x y : Z) (order : list Z) (j : Z) :
  index_of x order = Some j -> index_of y order = Some j -> x = y.
Proof.
  revert j. induction order as [|z rest IH]; intros j Hx Hy; [discriminate|].
  cbn [index_of] in Hx, Hy.
  assert (Hpos : forall w k, index_of w rest = Some k -> 0 <= k).
  { intros w k Hk.
    destruct (in_dec Z.eq_dec w rest) as [Hin|Hnin].
    - destruct (index_of_some w rest Hin) as (k' & Hk' & Hr).
      rewrite Hk in Hk'. inversion Hk'. lia.
    - rewrite (index_of_none w rest Hnin) in Hk. discriminate. }
  destruct (Z.eqb_spec x z) as [->|Hxz], (Z.eqb_spec y z) as [->|Hyz].
  - reflexivity.
  - destruct (index_of y rest) as [k|] eqn:Ek; [|discriminate].
    pose proof (Hpos y k Ek). inversion Hx. inversion Hy. lia.
  - destruct (index_of x rest) as [k|] eqn:Ek; [|discriminate].
    pose proof (Hpos x k Ek). inversion Hx. inversion Hy. lia.
  - destruct (index_of x rest) as [kx|] eqn:Ex; [|discriminate].
    destruct (index_of y rest) as [ky|] eqn:Ey; [|discriminate].
    apply (IH kx); [reflexivity|]. inversion Hx. inversion Hy. f_equal. lia.
Qed.

(** What the loop leaves at position [p]: the place of the trial of
    spike [p] in [order], counted from [i], or the old entry when the
    trial is not in [order]. *)
Lemma relabel_from_nth (raster order : list Z) :
  NoDup order ->
  forall i current p,
    List.length current = List.length raster ->
    (p < List.length raster)%nat ->
    List.nth p (relabel_from raster order i current) 0
    = match index_of (List.nth p raster 0) order with
      | Some j => i + j
      | None => List.nth p current 0
      end.
Proof.
  induction order as [|tr rest IH]; intros Hnd i current p Hlen Hp.
  - reflexivity.
  - apply NoDup_cons in Hnd as [Htr Hnd]. rewrite list_elem_of_In in Htr.
    cbn [relabel_from index_of].
    rewrite (IH Hnd) by (try apply where_eq_length; assumption).
    rewrite where_eq_nth by assumption.
    destruct (Z.eqb_spec (List.nth p raster 0) tr) as [->|Hne].
    + rewrite (index_of_none tr rest Htr). lia.
    + destruct (index_of (List.nth p raster 0) rest); [lia|reflexivity].
Qed.

Lemma relabel_nth (raster order : list Z) (p : nat) :
  NoDup order ->
  (forall x, In x raster -> In x order) ->
  (p < List.length raster)%nat ->
  exists j,
    index_of (List.nth p raster 0) order = Some j
    /\ 0 <= j < Z.of_nat (List.length order)
    /\ List.nth p (relabel raster order) 0 = j.
Proof.
  intros Hnd Hin Hp.
  destruct (index_of_some (List.nth p raster 0) order) as (j & Hj & Hr).
  { apply Hin, List.nth_In, Hp. }
  exists j. split; [exact Hj|]. split; [exact Hr|].
  unfold relabel. rewrite relabel_from_nth by (try reflexivity; assumption).
  rewrite Hj. lia.
Qed.

Lemma fold_max_bounds (rest : list Z) (x : Z) :
  x <= List.fold_left Z.max rest x
  /\ forall y, In y rest -> y <= List.fold_left Z.max rest x.
Proof.
  revert x. induction rest as [|z rest IH]; intros x; cbn [List.fold_left].
  - split; [lia|]. intros y [].
  - destruct (IH (Z.max x z)) as [H1 H2]. split; [lia|].
    intros y [<-|Hy]; [lia|auto].
Qed.

Lemma max_or_zero_bound (a : list Z) (y : Z) :
  In y a -> y <= max_or_zero a.
Proof.
  destruct a as [|x rest]; intros H; [destruct H|].
  cbn [max_or_zero]. destruct (fold_max_bounds rest x) as [H1 H2].
  destruct H as [<-|H]; auto.
Qed.

Lemma in_nth_lt (l : list Z) (y : Z) :
  In y l -> exists p, (p < List.length l)%nat /\ List.nth p l 0 = y.
Proof. intros H. apply (List.In_nth l y 0) in H. exact H. Qed.

(** X16. [_plot_spike_raster] gives every trial a row of its own. In
    whatever order Python iterates over the two sets of trials: the
    array of rows has one entry per spike; two spikes of one side are on
    the same row exactly when they belong to the same trial; the ipsi
    rows are numbered from 0 below the number of ipsi trials; and every
    contra row lies above every ipsi row. *)
Theorem raster_rows_separate_trials (ipsi_raster ipsi_order contra_raster
    contra_order : list Z) :
  enumerates ipsi_order ipsi_raster ->
  enumerates contra_order contra_raster ->
  let ipsi_rows := fst (_plot_spike_raster ipsi_raster ipsi_order
                          contra_raster contra_order) in
  let contra_rows := snd (_plot_spike_raster ipsi_raster ipsi_order
                            contra_raster contra_order) in
  List.length ipsi_rows = List.length ipsi_raster
  /\ List.length contra_rows = List.length contra_raster
  /\ (forall p q, (p < List.length ipsi_raster)%nat ->
                  (q < List.length ipsi_raster)%nat ->
        (List.nth p ipsi_rows 0 = List.nth q ipsi_rows 0
         <-> List.nth p ipsi_raster 0 = List.nth q ipsi_raster 0))
  /\ (forall p q, (p < List.length contra_raster)%nat ->
                  (q < List.length contra_raster)%nat ->
        (List.nth p contra_rows 0 = List.nth q contra_rows 0
         <-> List.nth p contra_raster 0 = List.nth q contra_raster 0))
  /\ (forall y, In y ipsi_rows -> 0 <= y < Z.of_nat (List.length ipsi_order))
  /\ (forall y y', In y ipsi_rows -> In y' contra_rows -> y < y').
Proof.
  intros [Hndi Hei] [Hndc Hec]. cbv zeta. unfold _plot_spike_raster.
  cbn [fst snd].
  assert (Hini : forall x, In x ipsi_raster -> In x ipsi_order)
    by (intros x; apply Hei).
  assert (Hinc : forall x, In x contra_raster -> In x contra_order)
    by (intros x; apply Hec).
  assert (Hli : List.length (relabel ipsi_raster ipsi_order)
                = List.length ipsi_raster)
    by (apply relabel_from_length; reflexivity).
  assert (Hlc : List.length (relabel contra_raster contra_order)
                = List.length contra_raster)
    by (apply relabel_from_length; reflexivity).
  assert (Hsame : forall raster order, NoDup order ->
            (forall x, In x raster -> In x order) ->
            forall p q, (p < List.length raster)%nat -> (q < List.length raster)%nat ->
            (List.nth p (relabel raster order) 0 = List.nth q (relabel raster order) 0
             <-> List.nth p raster 0 = List.nth q raster 0)).
  { intros raster order Hnd Hin p q Hp Hq.
    destruct (relabel_nth raster order p Hnd Hin Hp) as (jp & Hjp & _ & ->).
    destruct (relabel_nth raster order q Hnd Hin Hq) as (jq & Hjq & _ & ->).
    split.
    - intros ->. eapply index_of_injective; eassumption.
    - intros Heq. rewrite Heq in Hjp. congruence. }
  split; [exact Hli|]. split; [rewrite List.length_map; exact Hlc|].
  split; [apply Hsame; assumption|]. split; [|split].
  - intros p q Hp Hq.
    set (m := max_or_zero (relabel ipsi_raster ipsi_order)).
    rewrite !(List.nth_indep _ 0 ((fun y => y + m + 1) 0))
      by (rewrite List.length_map, Hlc; assumption).
    rewrite !(List.map_nth (fun y => y + m + 1)).
    rewrite <- (Hsame contra_raster contra_order Hndc Hinc p q Hp Hq). lia.
  - intros y Hy. apply in_nth_lt in Hy as (p & Hp & <-). rewrite Hli in Hp.
    destruct (relabel_nth ipsi_raster ipsi_order p Hndi Hini Hp) as (j & _ & Hr & ->).
    exact Hr.
  - intros y y' Hy Hy'.
    pose proof (max_or_zero_bound _ _ Hy) as Hmax.
    apply in_map_iff in Hy' as (l & <- & Hl).
    apply in_nth_lt in Hl as (p & Hp & <-). rewrite Hlc in Hp.
    destruct (relabel_nth contra_raster contra_order p Hndc Hinc Hp)
      as (j & _ & Hr & ->).
    lia.
Qed.

(** [raster_rows_separate_trials] on four ipsi spikes of trials 7, 7, 9,
    8 and four contra spikes of trials 3, 5, 3, 4. *)
Lemma raster_rows_separate_trials_example :
  let ipsi_rows :=
    fst (_plot_spike_raster MoreExamples.ipsi_spikes MoreExamples.ipsi_set_order
           MoreExamples.contra_spikes MoreExamples.contra_set_order) in
  let contra_rows :=
    snd (_plot_spike_raster MoreExamples.ipsi_spikes MoreExamples.ipsi_set_order
           MoreExamples.contra_spikes MoreExamples.contra_set_order) in
  List.length ipsi_rows = List.length MoreExamples.ipsi_spikes
  /\ List.length contra_rows = List.length MoreExamples.contra_spikes
  /\ (forall p q, (p < List.length MoreExamples.ipsi_spikes)%nat ->
                  (q < List.length MoreExamples.ipsi_spikes)%nat ->
        (List.nth p ipsi_rows 0 = List.nth q ipsi_rows 0
         <-> List.nth p MoreExamples.ipsi_spikes 0
             = List.nth q MoreExamples.ipsi_spikes 0))
  /\ (forall p q, (p < List.length MoreExamples.contra_spikes)%nat ->
                  (q < List.length MoreExamples.contra_spikes)%nat ->
        (List.nth p contra_rows 0 = List.nth q contra_rows 0
         <-> List.nth p MoreExamples.contra_spikes 0
             = List.nth q MoreExamples.contra_spikes 0))
  /\ (forall y, In y ipsi_rows
                -> 0 <= y < Z.of_nat (List.length MoreExamples.ipsi_set_order))
  /\ (forall y y', In y ipsi_rows -> In y' contra_rows -> y < y').
Proof.
  apply raster_rows_separate_trials.
  - split.
    + apply (bool_decide_unpack _). vm_compute. reflexivity.
    + intros x. cbn. tauto.
  - split.
    + apply (bool_decide_unpack _). vm_compute. reflexivity.
    + intros x. cbn. tauto.
Defined.

(** The rows themselves in that example: ipsi trials 9, 7, 8 on rows 0,
    1, 2 and contra trials 5, 3, 4 on rows 3, 4, 5. *)
Lemma raster_rows_values :
  _plot_spike_raster MoreExamples.ipsi_spikes MoreExamples.ipsi_set_order
    MoreExamples.contra_spikes MoreExamples.contra_set_order
  = ([1; 1; 0; 2], [4; 3; 4; 5]).
Proof. vm_compute. reflexivity. Qed.

(** X17. In [_plot_spike_raster_foraging] the two sides are not kept
    apart. With every spike's trial in the trial list of its side, a
    contra spike is drawn on row [jc + offset + 1] and an ipsi spike on
    row [ji + offset + contra_tr_max], [jc] and [ji] being the places of
    their trials in the two lists; so the two are on one row exactly when
    [ji + contra_tr_max = jc + 1]: the first ipsi trial shares its row
    with the contra trial before the largest contra label, and the second
    ipsi trial with the contra trial of the largest label. *)
Theorem foraging_raster_rows (ipsi_raster ipsi_trials contra_raster
    contra_trials : list Z) (offset : Z) (p q : nat) :
  NoDup ipsi_trials -> NoDup contra_trials ->
  (forall x, In x ipsi_raster -> In x ipsi_trials) ->
  (forall x, In x contra_raster -> In x contra_trials) ->
  (p < List.length contra_raster)%nat ->
  (q < List.length ipsi_raster)%nat ->
  let contra_rows := fst (_plot_spike_raster_foraging ipsi_raster ipsi_trials
                            contra_raster contra_trials offset) in
  let ipsi_rows := snd (_plot_spike_raster_foraging ipsi_raster ipsi_trials
                          contra_raster contra_trials offset) in
  let contra_tr_max := max_or_zero (relabel contra_raster contra_trials) in
  exists jc ji,
    index_of (List.nth p contra_raster 0) contra_trials = Some jc
    /\ index_of (List.nth q ipsi_raster 0) ipsi_trials = Some ji
    /\ List.nth p contra_rows 0 = jc + offset + 1
    /\ List.nth q ipsi_rows 0 = ji + offset + contra_tr_max
    /\ (List.nth p contra_rows 0 = List.nth q ipsi_rows 0
        <-> ji + contra_tr_max = jc + 1).
Proof.
  intros Hndi Hndc Hini Hinc Hp Hq. cbv zeta.
  unfold _plot_spike_raster_foraging. cbn [fst snd].
  destruct (relabel_nth contra_raster contra_trials p Hndc Hinc Hp)
    as (jc & Hjc & _ & Hrc).
  destruct (relabel_nth ipsi_raster ipsi_trials q Hndi Hini Hq)
    as (ji & Hji & _ & Hri).
  set (m := max_or_zero (relabel contra_raster contra_trials)).
  assert (Hc : List.nth p (List.map (fun y => y + offset + 1)
                             (relabel contra_raster contra_trials)) 0
               = jc + offset + 1).
  { rewrite (List.nth_indep _ 0 ((fun y => y + offset + 1) 0))
      by (rewrite List.length_map; unfold relabel;
          rewrite relabel_from_length; [assumption|reflexivity]).
    rewrite (List.map_nth (fun y => y + offset + 1)), Hrc. reflexivity. }
  assert (Hi : List.nth q (List.map (fun y => y + (offset + m))
                             (relabel ipsi_raster ipsi_trials)) 0
               = ji + offset + m).
  { rewrite (List.nth_indep _ 0 ((fun y => y + (offset + m)) 0))
      by (rewrite List.length_map; unfold relabel;
          rewrite relabel_from_length; [assumption|reflexivity]).
    rewrite (List.map_nth (fun y => y + (offset + m))), Hri. lia. }
  exists jc, ji. rewrite Hc, Hi.
  repeat split; try assumption; lia.
Qed.

(** [foraging_raster_rows] on the same spikes with the trial lists 7, 8,
    9 and 3, 4, 5 and offset 0: the contra spike of trial 4 and the ipsi
    spike of trial 7 are both on row 2. *)
Lemma foraging_raster_rows_example :
  exists jc ji,
    index_of 4 MoreExamples.contra_trial_list = Some jc
    /\ index_of 7 MoreExamples.ipsi_trial_list = Some ji
    /\ List.nth 3 (fst (_plot_spike_raster_foraging MoreExamples.ipsi_spikes
                          MoreExamples.ipsi_trial_list MoreExamples.contra_spikes
                          MoreExamples.contra_trial_list 0)) 0
       = jc + 0 + 1
    /\ List.nth 0 (snd (_plot_spike_raster_foraging MoreExamples.ipsi_spikes
                          MoreExamples.ipsi_trial_list MoreExamples.contra_spikes
                          MoreExamples.contra_trial_list 0)) 0
       = ji + 0 + 2
    /\ (List.nth 3 (fst (_plot_spike_raster_foraging MoreExamples.ipsi_spikes
                           MoreExamples.ipsi_trial_list MoreExamples.contra_spikes
                           MoreExamples.contra_trial_list 0)) 0
        = List.nth 0 (snd (_plot_spike_raster_foraging MoreExamples.ipsi_spikes
                             MoreExamples.ipsi_trial_list MoreExamples.contra_spikes
                             MoreExamples.contra_trial_list 0)) 0
        <-> ji + 2 = jc + 1).
Proof.
  apply (foraging_raster_rows MoreExamples.ipsi_spikes MoreExamples.ipsi_trial_list
           MoreExamples.contra_spikes MoreExamples.contra_trial_list 0 3 0).
  - apply (bool_decide_unpack _). vm_compute. reflexivity.
  - apply (bool_decide_unpack _). vm_compute. reflexivity.
  - intros x. cbn. tauto.
  - intros x. cbn. tauto.
  - cbn. lia.
  - cbn. lia.
Defined.

(** The rows in that example: contra on rows 1, 3, 1, 2 and ipsi on rows
    2, 2, 4, 3, so rows 2 and 3 carry spikes of both sides. *)
Lemma foraging_raster_rows_values :
  _plot_spike_raster_foraging MoreExamples.ipsi_spikes
    MoreExamples.ipsi_trial_list MoreExamples.contra_spikes
    MoreExamples.contra_trial_list 0
  = ([1; 3; 1; 2], [2; 2; 4; 3]).
Proof. vm_compute. reflexivity. Qed.

End RasterRows.

(** ** Condition names *)
Section ConditionNames.
Import Py UnitPsthPlots.

(** X18. The four conditions that the two PSTH plots request are always
    four different ones, and the hemisphere only decides which side is
    ipsi: a unit on the left has ipsi = left; any other hemisphere value,
    "right" or not, is treated as right. *)
Theorem conditions_are_distinct (hemi : string) (if_exclude_early_lick : bool) :
  NoDup (plot_unit_psth_conditions hemi)
  /\ NoDup (choice_outcome_conditions hemi if_exclude_early_lick)
  /\ (hemi <> "left"%string ->
      plot_unit_psth_conditions hemi = plot_unit_psth_conditions "right"
      /\ choice_outcome_conditions hemi if_exclude_early_lick
         = choice_outcome_conditions "right" if_exclude_early_lick)
  /\ plot_unit_psth_conditions "left"
     = ["good_noearlylick_left_hit"; "good_noearlylick_right_hit";
        "good_noearlylick_left_miss"; "good_noearlylick_right_miss"]%string
  /\ plot_unit_psth_conditions "right"
     = ["good_noearlylick_right_hit"; "good_noearlylick_left_hit";
        "good_noearlylick_right_miss"; "good_noearlylick_left_miss"]%string.
Proof.
  unfold plot_unit_psth_conditions, choice_outcome_conditions.
  split; [|split; [|split; [|split]]].
  - destruct (String.eqb hemi "left");
      apply (bool_decide_unpack _); vm_compute; reflexivity.
  - destruct (String.eqb hemi "left"), if_exclude_early_lick;
      apply (bool_decide_unpack _); vm_compute; reflexivity.
  - intros Hne. apply String.eqb_neq in Hne. rewrite Hne. split; reflexivity.
  - reflexivity.
  - reflexivity.
Qed.

End ConditionNames.

(** ** [PassivePhotostimTrial] *)
Section PassiveTrials.
Import Py Passive.

Lemma SessionTrialKey_eqb_eq (k1 k2 : SessionTrialKey) :
  SessionTrialKey_eqb k1 k2 = true <-> k1 = k2.
Proof.
  unfold SessionTrialKey_eqb. rewrite andb_true_iff, SessionKey_eqb_eq, Z.eqb_eq.
  destruct k1, k2; cbn. split.
  - intros [-> ->]. reflexivity.
  - intros H. inversion H. auto.
Qed.

Lemma has_key_In (table : list SessionTrialKey) (k : SessionTrialKey) :
  has_key table k = true <-> In k table.
Proof.
  unfold has_key. rewrite existsb_exists. split.
  - intros (x & Hx & He). apply SessionTrialKey_eqb_eq in He. subst. exact Hx.
  - intros H. exists k. split; [exact H|]. apply SessionTrialKey_eqb_eq. reflexivity.
Qed.

Lemma has_key_false (table : list SessionTrialKey) (k : SessionTrialKey) :
  has_key table k = false <-> ~ In k table.
Proof.
  rewrite <- has_key_In. destruct (has_key table k); split; intros H;
    first [congruence | discriminate | (exfalso; apply H; reflexivity) | idtac].
Qed.

Lemma key_source_In (P B : list SessionTrialKey) (k : SessionTrialKey) :
  In k (key_source P B) <-> In k P /\ ~ In k B.
Proof.
  unfold key_source. rewrite filter_In, negb_true_iff, has_key_false.
  reflexivity.
Qed.

Lemma make_each_fresh (keys table : list SessionTrialKey) :
  NoDup keys ->
  (forall k, In k keys -> ~ In k table) ->
  make_each keys table = (Ok tt, table ++ keys).
Proof.
  revert table. induction keys as [|k keys IH]; intros table Hnd Hfresh.
  - cbn. rewrite List.app_nil_r. reflexivity.
  - apply NoDup_cons in Hnd as [Hk Hnd]. rewrite list_elem_of_In in Hk.
    cbn [make_each]. unfold mbind, PassivePhotostimTrial_make, insert1.
    replace (has_key table k) with false
      by (symmetry; apply has_key_false, Hfresh; left; reflexivity).
    rewrite IH.
    + rewrite <- List.app_assoc. reflexivity.
    + exact Hnd.
    + intros k' Hk' Hin. apply in_app_or in Hin as [Hin|[<-|[]]].
      * apply (Hfresh k'); [right; exact Hk'|exact Hin].
      * contradiction.
Qed.

Lemma NoDup_filter_list {X : Type} (f : X -> bool) (l : list X) :
  NoDup l -> NoDup (List.filter f l).
Proof.
  induction l as [|x l IH]; intros H; [constructor|].
  apply NoDup_cons in H as [Hx H]. cbn [List.filter].
  destruct (f x); [|auto].
  apply NoDup_cons. split; [|auto].
  rewrite list_elem_of_In in *. intros Hin. apply filter_In in Hin as [Hin _].
  contradiction.
Qed.

Lemma populate_result (P B table : list SessionTrialKey) :
  NoDup P ->
  populate P B table
  = (Ok tt, table ++ List.filter (fun k => negb (has_key table k)) (key_source P B)).
Proof.
  intros Hnd. unfold populate. apply make_each_fresh.
  - apply NoDup_filter_list. unfold key_source. apply NoDup_filter_list. exact Hnd.
  - intros k Hk. apply filter_In in Hk as [_ Hk].
    apply negb_true_iff, has_key_false in Hk. exact Hk.
Qed.

(** X19. [populate] of [PassivePhotostimTrial] never fails on a duplicate
    and brings the table to hold, besides what it held, exactly the
    photostim trials that have no behavior trial; the rows it had stay in
    place and nothing is inserted twice. *)
Theorem populate_passive_trials (PhotostimTrial BehaviorTrial table
    : list SessionTrialKey) :
  NoDup PhotostimTrial ->
  exists added,
    populate PhotostimTrial BehaviorTrial table = (Ok tt, table ++ added)
    /\ NoDup added
    /\ (forall k, In k added
          <-> In k PhotostimTrial /\ ~ In k BehaviorTrial /\ ~ In k table)
    /\ (forall k, In k (table ++ added)
          <-> In k table \/ (In k PhotostimTrial /\ ~ In k BehaviorTrial)).
Proof.
  intros Hnd.
  exists (List.filter (fun k => negb (has_key table k))
                      (key_source PhotostimTrial BehaviorTrial)).
  split; [apply populate_result; exact Hnd|].
  assert (Hadded : forall k,
            In k (List.filter (fun k => negb (has_key table k))
                              (key_source PhotostimTrial BehaviorTrial))
            <-> In k PhotostimTrial /\ ~ In k BehaviorTrial /\ ~ In k table).
  { intros k. rewrite filter_In, key_source_In, negb_true_iff, has_key_false.
    tauto. }
  split; [|split; [exact Hadded|]].
  - apply NoDup_filter_list. unfold key_source. apply NoDup_filter_list. exact Hnd.
  - intros k. rewrite in_app_iff, Hadded.
    destruct (has_key table k) eqn:E.
    + apply has_key_In in E. tauto.
    + apply has_key_false in E. tauto.
Qed.

(** X20. A second [populate] finds nothing to do: it calls [make] on no
    key and leaves the table of the first run as it is. *)
Theorem populate_twice (PhotostimTrial BehaviorTrial table
    : list SessionTrialKey) :
  NoDup PhotostimTrial ->
  populate PhotostimTrial BehaviorTrial
    (snd (populate PhotostimTrial BehaviorTrial table))
  = (Ok tt, snd (populate PhotostimTrial BehaviorTrial table)).
Proof.
  intros Hnd. rewrite (populate_result _ _ table Hnd). cbn [snd].
  rewrite (populate_result _ _ _ Hnd).
  set (t1 := table ++ _).
  replace (List.filter (fun k => negb (has_key t1 k))
                       (key_source PhotostimTrial BehaviorTrial))
    with (@nil SessionTrialKey); [rewrite List.app_nil_r; reflexivity|].
  symmetry.
  assert (Hall : forall k, In k (key_source PhotostimTrial BehaviorTrial) ->
                           negb (has_key t1 k) = false).
  { intros k Hk. apply negb_false_iff, has_key_In. unfold t1.
    destruct (has_key table k) eqn:E.
    - apply in_or_app. left. apply has_key_In. exact E.
    - apply in_or_app. right. apply filter_In. split; [exact Hk|].
      rewrite E. reflexivity. }
  clearbody t1.
  induction (key_source PhotostimTrial BehaviorTrial) as [|k l IH];
    [reflexivity|].
  cbn [List.filter]. rewrite (Hall k (or_introl eq_refl)).
  apply IH. intros k' Hk'. apply Hall. right. exact Hk'.
Qed.

Lemma photostim_trials_NoDup : NoDup MoreExamples.photostim_trials.
Proof.
  unfold MoreExamples.photostim_trials.
  repeat (apply NoDup_cons; split;
          [rewrite list_elem_of_In; cbn; intros H;
           repeat (destruct H as [H|H]; [discriminate H|]); destruct H|]).
  apply NoDup_nil. trivial.
Qed.

(** [populate_passive_trials] on three photostim trials, the second of
    which has a behavior trial, and an empty table. *)
Lemma populate_passive_trials_example :
  exists added,
    populate MoreExamples.photostim_trials MoreExamples.behavior_trial_keys []
    = (Ok tt, [] ++ added)
    /\ NoDup added
    /\ (forall k, In k added
          <-> In k MoreExamples.photostim_trials
              /\ ~ In k MoreExamples.behavior_trial_keys /\ ~ In k [])
    /\ (forall k, In k ([] ++ added)
          <-> In k [] \/ (In k MoreExamples.photostim_trials
                          /\ ~ In k MoreExamples.behavior_trial_keys)).
Proof.
  apply populate_passive_trials. apply photostim_trials_NoDup.
Defined.

Lemma populate_passive_trials_values :
  populate MoreExamples.photostim_trials MoreExamples.behavior_trial_keys []
  = (Ok tt, [MoreExamples.session_trial 1; MoreExamples.session_trial 3]).
Proof. vm_compute. reflexivity. Qed.

(** [populate_twice] on the same tables. *)
Lemma populate_twice_example :
  populate MoreExamples.photostim_trials MoreExamples.behavior_trial_keys
    (snd (populate MoreExamples.photostim_trials
            MoreExamples.behavior_trial_keys []))
  = (Ok tt, snd (populate MoreExamples.photostim_trials
                   MoreExamples.behavior_trial_keys [])).
Proof.
  apply populate_twice. apply photostim_trials_NoDup.
Defined.

End PassiveTrials.

(** ** The gap-filled firing rates of [plot_unit_period_tuning] *)
Section PeriodTuning.
Import Py UnitPsthPlots.

Lemma fold_max_in (rest : list Z) (x : Z) :
  In (List.fold_left Z.max rest x) (x :: rest).
Proof.
  revert x. induction rest as [|z rest IH]; intros x; cbn [List.fold_left].
  - left. reflexivity.
  - destruct (Z.max_spec x z) as [[_ ->]|[_ ->]].
    + destruct (IH z) as [H|H]; [right; left; exact H | right; right; exact H].
    + destruct (IH x) as [H|H]; [left; exact H | right; right; exact H].
Qed.

Lemma fold_min_in (rest : list Z) (x : Z) :
  In (List.fold_left Z.min rest x) (x :: rest).
Proof.
  revert x. induction rest as [|z rest IH]; intros x; cbn [List.fold_left].
  - left. reflexivity.
  - destruct (Z.min_spec x z) as [[_ ->]|[_ ->]].
    + destruct (IH x) as [H|H]; [left; exact H | right; right; exact H].
    + destruct (IH z) as [H|H]; [right; left; exact H | right; right; exact H].
Qed.

Lemma fold_min_bounds (rest : list Z) (x : Z) :
  List.fold_left Z.min rest x <= x
  /\ forall y, In y rest -> List.fold_left Z.min rest x <= y.
Proof.
  revert x. induction rest as [|z rest IH]; intros x; cbn [List.fold_left].
  - split; [lia|]. intros y [].
  - destruct (IH (Z.min x z)) as [H1 H2]. split; [lia|].
    intros y [<-|Hy]; [lia|auto].
Qed.

Lemma getitem_error {X : Type} (a : list X) (i : Z) (e : exn) :
  getitem a i = Raise e -> e = IndexError.
Proof.
  unfold getitem. cbv zeta.
  destruct ((_ <? 0) || _); [intros H; inversion H; reflexivity|].
  destruct (List.nth_error a _); intros H; inversion H; reflexivity.
Qed.

Lemma for_each_error {X Y : Type} (f : X -> result Y) (xs : list X) (e : exn) :
  for_each f xs = Raise e -> exists x, In x xs /\ f x = Raise e.
Proof.
  induction xs as [|x xs IH]; cbn [for_each]; [discriminate|].
  destruct (f x) as [y|e'] eqn:Ex; cbn [bind].
  - destruct (for_each f xs) as [ys|e''] eqn:Er; cbn [bind]; [discriminate|].
    intros H. inversion H. subst.
    destruct (IH eq_refl) as (x0 & Hin & Hx0). exists x0. split; [right|]; assumption.
  - intros H. inversion H. subst. exists x. split; [left; reflexivity|exact Ex].
Qed.

Lemma for_each_length {X Y : Type} (f : X -> result Y) (xs : list X)
    (ys : list Y) :
  for_each f xs = Ok ys -> List.length ys = List.length xs.
Proof.
  revert ys. induction xs as [|x xs IH]; intros ys; cbn [for_each].
  - intros H. inversion H. reflexivity.
  - destruct (f x) as [y|e]; cbn [bind]; [|discriminate].
    destruct (for_each f xs) as [ys'|e]; cbn [bind]; [|discriminate].
    intros H. inversion H. cbn [List.length]. rewrite (IH ys' eq_refl). reflexivity.
Qed.

Lemma setitem_nat {X : Type} (a : list X) (j : nat) (v : X) :
  (j < List.length a)%nat ->
  setitem a (Z.of_nat j) v = Ok (<[j := v]> a).
Proof.
  intros Hj. unfold setitem, len.
  assert (E1 : (Z.of_nat j <? 0) = false) by (apply Z.ltb_ge; lia).
  assert (E2 : (Z.of_nat (List.length a) <=? Z.of_nat j) = false)
    by (apply Z.leb_gt; lia).
  cbv zeta. rewrite E1. cbv iota. rewrite E1, E2. cbn [orb].
  rewrite Nat2Z.id. reflexivity.
Qed.

Lemma setitem_cases {X : Type} (a : list X) (i : Z) (v : X) :
  setitem a i v = Raise IndexError
  \/ exists a', setitem a i v = Ok a' /\ List.length a' = List.length a.
Proof.
  unfold setitem. cbv zeta.
  destruct ((_ <? 0) || _); [left; reflexivity|].
  right. eexists. split; [reflexivity|]. apply length_insert.
Qed.

Lemma setitem_beyond {X : Type} (a : list X) (i : Z) (v : X) :
  0 <= i -> len a <= i -> setitem a i v = Raise IndexError.
Proof.
  intros H0 Hi. unfold setitem.
  assert (E1 : (i <? 0) = false) by (apply Z.ltb_ge; lia).
  assert (E2 : (len a <=? i) = true) by (apply Z.leb_le; lia).
  cbv zeta. rewrite E1. cbv iota. rewrite E1, E2. reflexivity.
Qed.

Lemma put_indices_beyond {X : Type} (idx : list Z) :
  forall (a vals : list X),
    List.length vals = List.length idx ->
    (exists i, In i idx /\ 0 <= i /\ len a <= i) ->
    put_indices a idx vals = Raise IndexError.
Proof.
  induction idx as [|i idx IH]; intros a vals Hlen (i0 & Hin & H0 & Hi);
    [destruct Hin|].
  destruct vals as [|v vals]; [discriminate Hlen|].
  cbn [put_indices].
  destruct (setitem_cases a i v) as [->|(a' & Hs & Hl)]; [reflexivity|].
  destruct Hin as [->|Hin].
  - rewrite (setitem_beyond a i0 v H0 Hi) in Hs. discriminate Hs.
  - rewrite Hs. cbn [bind]. apply IH.
    + cbn in Hlen. lia.
    + exists i0. split; [exact Hin|]. split; [exact H0|].
      unfold len in *. rewrite Hl. exact Hi.
Qed.

Lemma put_indices_nat {X : Type} (g : nat -> X) (d : X) (js : list nat) :
  forall a : list X,
    (forall j, In j js -> (j < List.length a)%nat) ->
    exists a',
      put_indices a (List.map Z.of_nat js) (List.map g js) = Ok a'
      /\ List.length a' = List.length a
      /\ forall i, (In i js -> List.nth i a' d = g i)
                   /\ (~ In i js -> List.nth i a' d = List.nth i a d).
Proof.
  induction js as [|j js IH]; intros a Hjs.
  - exists a. split; [reflexivity|]. split; [reflexivity|].
    intros i. split; [intros []|reflexivity].
  - cbn [List.map put_indices].
    rewrite setitem_nat by (apply Hjs; left; reflexivity). cbn [bind].
    destruct (IH (<[j := g j]> a)) as (a' & Hput & Hlen & Hnth).
    { intros k Hk. rewrite length_insert. apply Hjs. right. exact Hk. }
    exists a'. split; [exact Hput|].
    split; [rewrite Hlen; apply length_insert|].
    intros i. destruct (Hnth i) as [Hin Hout].
    destruct (in_dec Nat.eq_dec i js) as [Hi|Hi].
    + split; [intros _; auto|]. intros H. exfalso. apply H. right. exact Hi.
    + split.
      * intros [<-|H]; [|contradiction].
        rewrite (Hout Hi). apply nth_lookup_Some.
        apply list_lookup_insert_eq. apply Hjs. left. reflexivity.
      * intros H. rewrite (Hout Hi).
        assert (j <> i) by (intros ->; apply H; left; reflexivity).
        rewrite !nth_lookup, list_lookup_insert_ne by assumption. reflexivity.
Qed.

Lemma take_indices_nat {X : Type} (d : X) (a : list X) (js : list nat) :
  (forall j, In j js -> (j < List.length a)%nat) ->
  take_indices a (List.map Z.of_nat js) = Ok (List.map (fun j => List.nth j a d) js).
Proof.
  intros Hjs. unfold take_indices.
  rewrite (for_each_map _ (fun z => List.nth (Z.to_nat z) a d)).
  - rewrite List.map_map. f_equal. apply List.map_ext. intros j.
    rewrite Nat2Z.id. reflexivity.
  - intros z Hz. apply in_map_iff in Hz as (j & <- & Hj).
    rewrite Nat2Z.id. apply getitem_nat. apply List.nth_error_nth'. auto.
Qed.

(** X21. The gap-filled array is indexed with [trial - 1] but starts at
    the smallest trial, so it only fits when the trials start at 1. If
    the model trials that have ephys are all numbered 2 or more (the
    first trial was ignored, say), the function raises [IndexError]. *)
Theorem gap_fill_needs_trial_one (iv_trial pa_trial : list Z)
    (firing_rates : list float) (last_ephys : Z) :
  py_max pa_trial = Ok last_ephys ->
  (exists t, In t iv_trial /\ t <= last_ephys) ->
  (forall t, In t iv_trial -> t <= last_ephys -> 2 <= t) ->
  period_firing_with_nan iv_trial pa_trial firing_rates = Raise IndexError.
Proof.
  intros Hmax (t0 & Ht0 & Hle0) Hge.
  unfold period_firing_with_nan. rewrite Hmax. cbn [bind].
  set (trial := List.filter (fun t => t <=? last_ephys) iv_trial).
  assert (Hkept : forall t, In t trial <-> In t iv_trial /\ t <= last_ephys).
  { intros t. unfold trial. rewrite filter_In, Z.leb_le. reflexivity. }
  assert (Hne : trial <> []).
  { intros E. assert (In t0 trial) by (apply Hkept; auto).
    rewrite E in H. destruct H. }
  destruct (take_indices firing_rates (List.map (fun t => t - 1) trial))
    as [firing|e] eqn:Etake.
  2:{ cbn [bind]. apply for_each_error in Etake as (x & _ & Hx).
      apply getitem_error in Hx. congruence. }
  cbn [bind]. apply for_each_length in Etake. rewrite List.length_map in Etake.
  destruct trial as [|x rest] eqn:Etrial; [congruence|].
  cbn [np_min np_max List.map bind].
  set (lo := List.fold_left Z.min rest x).
  set (hi := List.fold_left Z.max (List.map (fun t => t + 1) rest) (x + 1)).
  assert (Hput : put_indices
                   (List.repeat PrimFloat.nan (List.length (arange lo hi)))
                   (List.map (fun t => t - 1) (x :: rest)) firing
                 = Raise IndexError).
  { apply put_indices_beyond; [rewrite List.length_map; exact Etake|].
    assert (Hlo : 2 <= lo).
    { destruct (Hkept lo) as [[H1 H2] _]; [apply fold_min_in|]. auto. }
    assert (Hhi : In hi (List.map (fun t => t + 1) (x :: rest)))
      by (apply (fold_max_in (List.map (fun t => t + 1) rest) (x + 1))).
    apply in_map_iff in Hhi as (tm & Htm & Hin).
    exists (tm - 1). split; [apply in_map_iff; exists tm; auto|].
    assert (2 <= tm) by (destruct (Hkept tm) as [[H1 H2] _]; auto).
    split; [lia|].
    unfold len, arange.
    rewrite List.repeat_length, List.length_map, List.length_seq. lia. }
  cbn [List.map] in Hput. rewrite Hput. reflexivity.
Qed.

(** X22. When the model trials that have ephys start at trial 1 and each
    has a firing rate, the function lays the rates out over the trials 1
    to the last one: the array has one entry per trial number up to the
    last, the entry of a trial that is present is its firing rate, and
    the entry of a trial that is missing (ignored by the model) is NaN. *)
Theorem gap_fill_from_trial_one (iv_trial pa_trial : list Z)
    (firing_rates : list float) (last_ephys : Z) :
  py_max pa_trial = Ok last_ephys ->
  In 1 iv_trial -> 1 <= last_ephys ->
  (forall t, In t iv_trial -> t <= last_ephys ->
             1 <= t <= Z.of_nat (List.length firing_rates)) ->
  exists last firing_with_nan,
    period_firing_with_nan iv_trial pa_trial firing_rates
    = Ok (arange 1 (last + 1), firing_with_nan)
    /\ In last iv_trial /\ last <= last_ephys
    /\ (forall t, In t iv_trial -> t <= last_ephys -> t <= last)
    /\ Z.of_nat (List.length firing_with_nan) = last
    /\ (forall t, In t iv_trial -> t <= last_ephys ->
          List.nth (Z.to_nat (t - 1)) firing_with_nan PrimFloat.nan
          = List.nth (Z.to_nat (t - 1)) firing_rates PrimFloat.nan)
    /\ (forall t, 1 <= t <= last -> ~ In t iv_trial ->
          List.nth (Z.to_nat (t - 1)) firing_with_nan PrimFloat.nan
          = PrimFloat.nan).
Proof.
  intros Hmax H1 Hle1 Hrange.
  unfold period_firing_with_nan. rewrite Hmax. cbn [bind].
  set (trial := List.filter (fun t => t <=? last_ephys) iv_trial).
  assert (Hkept : forall t, In t trial <-> In t iv_trial /\ t <= last_ephys).
  { intros t. unfold trial. rewrite filter_In, Z.leb_le. reflexivity. }
  set (js := List.map (fun t => Z.to_nat (t - 1)) trial).
  assert (Hidx : List.map (fun t => t - 1) trial = List.map Z.of_nat js).
  { unfold js. rewrite List.map_map. apply List.map_ext_in. intros t Ht.
    apply Hkept in Ht as [Ht Hle]. pose proof (Hrange t Ht Hle). lia. }
  assert (Hjs : forall j, In j js -> (j < List.length firing_rates)%nat).
  { intros j Hj. unfold js in Hj. apply in_map_iff in Hj as (t & <- & Ht).
    apply Hkept in Ht as [Ht Hle]. pose proof (Hrange t Ht Hle). lia. }
  rewrite Hidx, (take_indices_nat PrimFloat.nan firing_rates js Hjs). cbn [bind].
  assert (Hin1 : In 1 trial) by (apply Hkept; auto).
  destruct trial as [|x rest] eqn:Etrial; [destruct Hin1|].
  cbn [np_min np_max List.map bind].
  set (lo := List.fold_left Z.min rest x).
  set (hi := List.fold_left Z.max (List.map (fun t => t + 1) rest) (x + 1)).
  assert (Hlo : lo = 1).
  { assert (lo <= 1).
    { destruct (fold_min_bounds rest x) as [Hx Hr].
      destruct Hin1 as [->|Hin]; [exact Hx|apply Hr; exact Hin]. }
    assert (1 <= lo).
    { destruct (Hkept lo) as [[Ha Hb] _]; [apply fold_min_in|].
      pose proof (Hrange lo Ha Hb). lia. }
    lia. }
  assert (Hhi : In hi (List.map (fun t => t + 1) (x :: rest)))
    by (apply (fold_max_in (List.map (fun t => t + 1) rest) (x + 1))).
  apply in_map_iff in Hhi as (last & Hlast & Hinlast).
  assert (Hub : forall t, In t (x :: rest) -> t <= last).
  { intros t Ht.
    destruct (fold_max_bounds (List.map (fun t => t + 1) rest) (x + 1)) as [Hx Hr].
    fold hi in Hx, Hr.
    destruct Ht as [<-|Ht]; [lia|].
    specialize (Hr (t + 1) (in_map (fun t => t + 1) rest t Ht)). lia. }
  assert (Hlast1 : 1 <= last) by (apply Hub; exact Hin1).
  rewrite <- Hlast, Hlo.
  set (n := List.length (arange 1 (last + 1))).
  assert (Hn : n = Z.to_nat last).
  { unfold n, arange. rewrite List.length_map, List.length_seq. lia. }
  destruct (put_indices_nat (fun j => List.nth j firing_rates PrimFloat.nan)
              PrimFloat.nan js (List.repeat PrimFloat.nan n))
    as (fw & Hput & Hlen & Hnth).
  { intros j Hj. rewrite List.repeat_length, Hn.
    unfold js in Hj. apply in_map_iff in Hj as (t & <- & Ht).
    pose proof (Hub t Ht). apply Hkept in Ht as [Ht Hle].
    pose proof (Hrange t Ht Hle). lia. }
  rewrite Hput. cbn [bind].
  exists last, fw. split; [reflexivity|].
  destruct (proj1 (Hkept last) Hinlast) as [Hl1 Hl2].
  split; [exact Hl1|]. split; [exact Hl2|].
  split; [intros t Ht Hle; apply Hub, Hkept; auto|].
  split; [rewrite Hlen, List.repeat_length, Hn; lia|].
  split.
  - intros t Ht Hle. apply (proj1 (Hnth (Z.to_nat (t - 1)))).
    unfold js. apply in_map_iff. exists t. split; [reflexivity|].
    apply Hkept. auto.
  - intros t Ht Hnot.
    rewrite (proj2 (Hnth (Z.to_nat (t - 1)))).
    + apply List.nth_repeat.
    + unfold js. intros Hin. apply in_map_iff in Hin as (t' & Heq & Ht').
      apply Hkept in Ht' as [Ht' Hle']. pose proof (Hrange t' Ht' Hle').
      assert (t' = t) by lia. subst. contradiction.
Qed.

(** [gap_fill_needs_trial_one] on a fit whose first trial is trial 2. *)
Lemma gap_fill_needs_trial_one_example :
  period_firing_with_nan MoreExamples.model_trials_from_2
    MoreExamples.ephys_trials MoreExamples.rates
  = Raise IndexError.
Proof.
  apply (gap_fill_needs_trial_one _ _ _ 5).
  - reflexivity.
  - exists 2. split; [left; reflexivity|lia].
  - intros t [<-|[<-|[<-|[]]]] _; lia.
Defined.

(** [gap_fill_from_trial_one] on a fit over the trials 1, 3, 4 and 9 with
    five ephys trials. *)
Lemma gap_fill_from_trial_one_example :
  exists last firing_with_nan,
    period_firing_with_nan MoreExamples.model_trials_from_1
      MoreExamples.ephys_trials MoreExamples.rates
    = Ok (arange 1 (last + 1), firing_with_nan)
    /\ In last MoreExamples.model_trials_from_1 /\ last <= 5
    /\ (forall t, In t MoreExamples.model_trials_from_1 -> t <= 5 -> t <= last)
    /\ Z.of_nat (List.length firing_with_nan) = last
    /\ (forall t, In t MoreExamples.model_trials_from_1 -> t <= 5 ->
          List.nth (Z.to_nat (t - 1)) firing_with_nan PrimFloat.nan
          = List.nth (Z.to_nat (t - 1)) MoreExamples.rates PrimFloat.nan)
    /\ (forall t, 1 <= t <= last -> ~ In t MoreExamples.model_trials_from_1 ->
          List.nth (Z.to_nat (t - 1)) firing_with_nan PrimFloat.nan
          = PrimFloat.nan).
Proof.
  apply (gap_fill_from_trial_one MoreExamples.model_trials_from_1
           MoreExamples.ephys_trials MoreExamples.rates 5).
  - reflexivity.
  - left. reflexivity.
  - lia.
  - intros t [<-|[<-|[<-|[<-|[]]]]] Hle; cbn; lia.
Defined.

Lemma gap_fill_values :
  period_firing_with_nan MoreExamples.model_trials_from_1
    MoreExamples.ephys_trials MoreExamples.rates
  = Ok ([1; 2; 3; 4], [10%float; PrimFloat.nan; 30%float; 40%float]).
Proof. vm_compute. reflexivity. Qed.

End PeriodTuning.

(** ** The quantile groups as a partition *)
Section GroupsCover.
Import Py UnitPsth.

Lemma n_unique_ranks_contiguous (df : list Row) (k : nat) :
  (forall r, In r df ->
     exists q, quantile_rank r = Some q /\ 0 <= q < Z.of_nat k) ->
  (forall q, 0 <= q < Z.of_nat k -> exists r, In r df /\ quantile_rank r = Some q) ->
  n_unique_ranks df = k.
Proof.
  intros Hall Hevery. unfold n_unique_ranks.
  set (T := List.map (fun i => Some (Z.of_nat i)) (List.seq 0 k)).
  assert (HT : List.length T = k)
    by (unfold T; rewrite List.length_map, List.length_seq; reflexivity).
  rewrite <- HT. apply Permutation_length.
  apply NoDup_Permutation.
  - apply NoDup_remove_dups.
  - unfold T. apply NoDup_fmap_2.
    + intros i j H. inversion H. lia.
    + apply NoDup_ListNoDup, List.seq_NoDup.
  - intros x. rewrite elem_of_remove_dups, !list_elem_of_In.
    unfold T. rewrite !in_map_iff. split.
    + intros (r & <- & Hr). destruct (Hall r Hr) as (q & -> & Hq).
      exists (Z.to_nat q). split; [f_equal; lia|]. apply in_seq. lia.
    + intros (i & <- & Hi). apply in_seq in Hi.
      destruct (Hevery (Z.of_nat i)) as (r & Hr & Hq); [lia|].
      exists r. split; [exact Hq|exact Hr].
Qed.

(** X23. When the ranks of the frame are the integers 0 to [k - 1], all
    of them used and none missing (no NaN rank), the function counts [k]
    groups and the groups cover the frame: every behavior trial of the
    unit's session whose number is the number of a row plus the offset is
    in the trial set of that row's rank. *)
Theorem groups_cover_the_frame (env : Collaborators) (unit_key : UnitKey)
    (df : list Row) (k : nat) (offset : Z) :
  (forall r, In r df ->
     exists q, quantile_rank r = Some q /\ 0 <= q < Z.of_nat k) ->
  (forall q, 0 <= q < Z.of_nat k -> exists r, In r df /\ quantile_rank r = Some q) ->
  n_unique_ranks df = k
  /\ List.length (group_trials env unit_key df (n_unique_ranks df) offset) = k
  /\ forall (b : TrialKey) (r : Row),
       In b (BehaviorTrial env) ->
       trial_session b = unit_session unit_key ->
       In r df -> trial b = row_trial r + offset ->
       exists q,
         quantile_rank r = Some (Z.of_nat q) /\ (q < k)%nat
         /\ In b (List.nth q (group_trials env unit_key df (n_unique_ranks df)
                                offset) []).
Proof.
  intros Hall Hevery.
  pose proof (n_unique_ranks_contiguous df k Hall Hevery) as Hn.
  rewrite Hn. split; [reflexivity|].
  split; [unfold group_trials, range;
          rewrite !List.length_map, List.length_seq; reflexivity|].
  intros b r Hb Hs Hr Ht.
  destruct (Hall r Hr) as (q & Hq & Hrange).
  exists (Z.to_nat q). split; [rewrite Hq; f_equal; lia|]. split; [lia|].
  unfold group_trials, range. rewrite List.map_map.
  rewrite (List.nth_indep _ []
             ((fun i => this_trials env unit_key
                          (trial_num df (Z.of_nat i) offset)) 0%nat))
    by (rewrite List.length_map, List.length_seq; lia).
  rewrite (List.map_nth (fun i => this_trials env unit_key
                                    (trial_num df (Z.of_nat i) offset))).
  rewrite List.seq_nth by lia. cbn [Nat.add].
  unfold this_trials. apply filter_In. split; [exact Hb|].
  apply andb_true_iff. split; [apply SessionKey_eqb_eq; exact Hs|].
  apply in_trial_num. exists r. split; [exact Hr|].
  split; [rewrite Hq; f_equal; lia|exact Ht].
Qed.

(** [groups_cover_the_frame] on the ranked frame, whose ranks are 0 and
    1, with offset 1. *)
Lemma groups_cover_the_frame_example :
  n_unique_ranks Examples.frame_ranked = 2%nat
  /\ List.length (group_trials (Examples.world []) Examples.unit541
                    Examples.frame_ranked
                    (n_unique_ranks Examples.frame_ranked) 1) = 2%nat
  /\ forall (b : TrialKey) (r : Row),
       In b (BehaviorTrial (Examples.world [])) ->
       trial_session b = unit_session Examples.unit541 ->
       In r Examples.frame_ranked -> trial b = row_trial r + 1 ->
       exists q,
         quantile_rank r = Some (Z.of_nat q) /\ (q < 2)%nat
         /\ In b (List.nth q (group_trials (Examples.world []) Examples.unit541
                                Examples.frame_ranked
                                (n_unique_ranks Examples.frame_ranked) 1) []).
Proof.
  apply groups_cover_the_frame.
  - intros r [<-|[<-|[<-|[<-|[]]]]]; eexists; (split; [reflexivity|cbn; lia]).
  - intros q Hq.
    destruct (Z.eq_dec q 0) as [->|Hq0]; [|assert (q = 1) by lia; subst q].
    + exists (Examples.row 1 0.125%float (Some 0)). split; [left|]; reflexivity.
    + exists (Examples.row 2 0.875%float (Some 1)).
      split; [right; left|]; reflexivity.
Defined.

End GroupsCover.
